(** * VC4CL: the mailbox channel (src/Mailbox.cpp) and the event actions
      (src/Event.h), embedded as state-passing functions.

    Unsigned 32-bit values are integers of [Z]; the conversions the source
    performs ([static_cast<unsigned>], [bool] to [unsigned]) are written out.
    System calls are answered by an abstract host; every call the program
    issues is also appended to a log kept in the program state, so that
    statements of the form "no call was issued" or "the handle was never
    released" can be written down.

    The two places that print between a failed system call and the read
    of [errno] ([mailboxCall], [mbox_open]) hand each print to the host,
    which may change [errno].  Left out: the printing after which the
    program reads nothing ([dumpContent], the DEBUG_MODE output), the
    destructor of [Mailbox], and of Event.h everything but the two
    actions, since the class [Event] has no code under src/. *)

From Stdlib Require Import ZArith String List Lia Bool.
From stdpp Require Import base option list.
Import ListNotations.

Local Open Scope Z_scope.

(** ** Machine values *)

(** [std::array<unsigned, N>]: the message buffer handed to [ioctl]. *)
Definition Buffer : Type := list Z.

(** [static_cast<unsigned>(x)] for an integer [x] of a wider type. *)
Definition static_cast_unsigned (x : Z) : Z := x mod 2 ^ 32.

(** Conversion of a [bool] to [unsigned]. *)
Definition bool_to_unsigned (b : bool) : Z := if b then 1 else 0.

(** The tags of [enum class MailboxTag] that Mailbox.cpp names. *)
Inductive MailboxTag : Type :=
| ALLOCATE_MEMORY
| LOCK_MEMORY
| UNLOCK_MEMORY
| RELEASE_MEMORY
| EXECUTE_CODE
| EXECUTE_QPU
| ENABLE_QPU
| VC_MEMORY.

(** The two exception types thrown in Mailbox.cpp. *)
Inductive exn : Type :=
| system_error (code : Z) (what : string)
| runtime_error (what : string).

(** Outcome of a call: a value, an exception, or undefined behaviour
    (reading through a pointer that designates no object). *)
Inductive Res (A : Type) : Type :=
| Ok (a : A)
| Throw (e : exn)
| Undefined.
Arguments Ok {A} a.
Arguments Throw {A} e.
Arguments Undefined {A}.

(** What a function that must not throw ends with: [DeviceBuffer]'s
    destructor has no exception specification and so is [noexcept]; an
    exception that would leave it ends the program in [std::terminate]. *)
Inductive Ending (A : Type) : Type :=
| Returned (a : A)
| Terminated
| UndefinedBehaviour.
Arguments Returned {A} a.
Arguments Terminated {A}.
Arguments UndefinedBehaviour {A}.

(** The diagnostics printed between a failed system call and the read of
    [errno]: the two [std::cout] lines of [mbox_open] (Mailbox.cpp:81-82)
    and the [std::cout] line and the [perror] of [mailboxCall]
    (Mailbox.cpp:191-192). *)
Inductive Diagnostic : Type :=
| cout_cannot_open
| cout_try_mknod
| cout_ioctl_failed (ret_val : Z)
| perror_mbox_property.

(** The calls to the device and to the mapping helpers, in the order they
    are issued. *)
Inductive Call : Type :=
| CallOpen
| CallIoctl (fd : Z) (request : Buffer)
| CallMap (base size : Z)
| CallUnmap (ptr size : Z).

(** [struct DeviceBuffer]; pointers are integers, 0 is the null pointer. *)
Record DeviceBuffer : Type := mkDeviceBuffer {
  memHandle : Z;
  qpuPointer : Z;
  hostPointer : Z;
  size : Z
}.

(** [class Mailbox]: its only data member is the file descriptor. *)
Record Mailbox : Type := mkMailbox { fd : Z }.

(** A [DeviceBuffer*]: 0 is [nullptr], [S i] designates the [i]-th object
    created by [new]. *)
Definition nullptr : nat := 0%nat.

(** ** What lies outside src/ *)

(** The operating system and the firmware behind it.  [ioctl] gives the
    return value and the buffer as the kernel leaves it; [errno] is the
    value of the C variable of that name; [diagnose] is what printing a
    diagnostic does, [errno] included: a print that fails writes its own
    error code there.

    Modelled from the spec: [mapmem] and [unmapmem], the two mapping
    helpers Mailbox.cpp calls and does not define.  They map a physical
    range into the process and take a mapping away; a mapping that fails
    gives the null pointer, since the spec keeps abrupt failure for the
    system call of the channel alone. *)
Class Host : Type := {
  World : Type;
  errno : World -> Z;
  open_device : World -> Z * World;
  ioctl : World -> Z -> Buffer -> Z * Buffer * World;
  mapmem : World -> Z -> Z -> Z * World;
  unmapmem : World -> Z -> Z -> World;
  diagnose : World -> Diagnostic -> World
}.

(** What Mailbox.h and V3D.h declare and the build defines: the debug
    switch, the page alignment, the address translation, the message
    templates ([MailboxMessage<Tag, RequestSize, MaxResponseSize>],
    [QueryMessage<Tag>], [SimpleQueryMessage<Tag>]) and their accessor. *)
Class Headers : Type := {
  DEBUG_MODE : bool;
  PAGE_ALIGNMENT : Z;
  busAddressToPhysicalAddress : Z -> Z;
  MailboxMessage : MailboxTag -> nat -> nat -> list Z -> Buffer;
  QueryMessage : MailboxTag -> list Z -> Buffer;
  SimpleQueryMessage : MailboxTag -> Buffer;
  getContent : Buffer -> nat -> Z
}.

(** ** Program state and the monad of Mailbox.cpp *)

Record State {H : Host} : Type := mkState {
  world : World;
  calls : list Call;
  objects : list DeviceBuffer;
  mb : option Mailbox
}.
Arguments mkState {H} world calls objects mb.

Definition M {H : Host} (A : Type) : Type := State -> Res A * State.

#[global] Instance M_ret {H : Host} : MRet M :=
  fun A a s => (Ok a, s).

#[global] Instance M_bind {H : Host} : MBind M :=
  fun A B f m s =>
    match m s with
    | (Ok a, s') => f a s'
    | (Throw e, s') => (Throw e, s')
    | (Undefined, s') => (Undefined, s')
    end.

Definition throw {H : Host} {A : Type} (e : exn) : M A :=
  fun s => (Throw e, s).

Section MailboxCpp.
Context {H : Host} {HD : Headers}.

(** One system call: the host answers, the log grows by one entry. *)
Definition sys_open : M Z := fun s =>
  let '(r, w) := open_device (world s) in
  (Ok r, mkState w (calls s ++ [CallOpen]) (objects s) (mb s)).

Definition sys_ioctl (fd : Z) (buffer : Buffer) : M (Z * Buffer) := fun s =>
  let '(r, b, w) := ioctl (world s) fd buffer in
  (Ok (r, b), mkState w (calls s ++ [CallIoctl fd buffer]) (objects s) (mb s)).

Definition call_mapmem (base sz : Z) : M Z := fun s =>
  let '(p, w) := mapmem (world s) base sz in
  (Ok p, mkState w (calls s ++ [CallMap base sz]) (objects s) (mb s)).

Definition call_unmapmem (ptr sz : Z) : M unit := fun s =>
  let w := unmapmem (world s) ptr sz in
  (Ok tt, mkState w (calls s ++ [CallUnmap ptr sz]) (objects s) (mb s)).

Definition get_errno : M Z := fun s => (Ok (errno (world s)), s).

(** One diagnostic is printed; these prints are not entered in the log. *)
Definition report (d : Diagnostic) : M unit := fun s =>
  (Ok tt, mkState (diagnose (world s) d) (calls s) (objects s) (mb s)).

(** A body run under [noexcept]. *)
Definition noexcept {A : Type} (body : M A) (s : State) : Ending A * State :=
  match body s with
  | (Ok a, s') => (Returned a, s')
  | (Throw _, s') => (Terminated, s')
  | (Undefined, s') => (UndefinedBehaviour, s')
  end.

(** [new DeviceBuffer(...)] and the read of a member through a pointer. *)
Definition new_DeviceBuffer (b : DeviceBuffer) : M nat := fun s =>
  (Ok (S (length (objects s))),
   mkState (world s) (calls s) (objects s ++ [b]) (mb s)).

Definition deref (p : nat) (s : State) : option DeviceBuffer :=
  match p with
  | O => None
  | S i => objects s !! i
  end.

Definition member {A : Type} (f : DeviceBuffer -> A) (p : nat) : M A := fun s =>
  match deref p s with
  | Some b => (Ok (f b), s)
  | None => (Undefined, s)
  end.

(** [int Mailbox::mailboxCall(void* buffer) const], lines 178-203.  The
    buffer is overwritten in place, so it is returned with the value.  On
    a failure the [std::cout] line and the [perror] come before [errno] is
    read for the [throw]. *)
Definition mailboxCall (this : Mailbox) (buffer : Buffer) : M (Z * Buffer) :=
  '(ret_val, buffer) ← sys_ioctl (fd this) buffer;
  if ret_val <? 0 then
    _ ← report (cout_ioctl_failed ret_val);
    _ ← report perror_mbox_property;
    e ← get_errno;
    throw (system_error e "Failed to set mailbox property")
  else mret (ret_val, buffer).

(** [Mailbox::enableQPU], lines 205-217. *)
Definition enableQPU (this : Mailbox) (enable : bool) : M bool :=
  let msg := QueryMessage ENABLE_QPU [bool_to_unsigned enable] in
  '(r, msg) ← mailboxCall this msg;
  if r <? 0 then mret false
  else mret ((getContent msg 0 =? 0) || (getContent msg 0 =? 0x80000000)).

(** [Mailbox::memAlloc], lines 219-225. *)
Definition memAlloc (this : Mailbox) (sizeInBytes alignmentInBytes flags : Z) : M Z :=
  let msg := MailboxMessage ALLOCATE_MEMORY 3 1 [sizeInBytes; alignmentInBytes; flags] in
  '(r, msg) ← mailboxCall this msg;
  if r <? 0 then mret 0
  else mret (getContent msg 0).

(** [Mailbox::memLock], lines 227-233. *)
Definition memLock (this : Mailbox) (handle : Z) : M Z :=
  let msg := QueryMessage LOCK_MEMORY [handle] in
  '(r, msg) ← mailboxCall this msg;
  if r <? 0 then mret 0
  else mret (getContent msg 0).

(** [Mailbox::memUnlock], lines 235-241. *)
Definition memUnlock (this : Mailbox) (handle : Z) : M bool :=
  let msg := QueryMessage UNLOCK_MEMORY [handle] in
  '(r, msg) ← mailboxCall this msg;
  if r <? 0 then mret false
  else mret (getContent msg 0 =? 0).

(** [Mailbox::memFree], lines 243-249. *)
Definition memFree (this : Mailbox) (handle : Z) : M bool :=
  let msg := QueryMessage RELEASE_MEMORY [handle] in
  '(r, msg) ← mailboxCall this msg;
  if r <? 0 then mret false
  else mret (getContent msg 0 =? 0).

(** [Mailbox::executeCode], lines 139-145. *)
Definition executeCode (this : Mailbox)
    (codeAddress valueR0 valueR1 valueR2 valueR3 valueR4 valueR5 : Z) : M bool :=
  let msg := MailboxMessage EXECUTE_CODE 7 1
               [codeAddress; valueR0; valueR1; valueR2; valueR3; valueR4; valueR5] in
  '(r, msg) ← mailboxCall this msg;
  if r <? 0 then mret false
  else mret (getContent msg 0 =? 0).

(** [Mailbox::executeQPU], lines 147-164.  [timeout] is the 64-bit count
    of milliseconds; the [return false] of the timeout test stands inside
    [#ifdef DEBUG_MODE], so without that switch the test has an empty
    body. *)
Definition executeQPU (this : Mailbox) (numQPUs : Z) (controlAddress : Z * Z)
    (flushBuffer : bool) (timeout : Z) : M bool :=
  let rest : M bool :=
    let msg := MailboxMessage EXECUTE_QPU 4 1
                 [numQPUs; snd controlAddress;
                  bool_to_unsigned (negb flushBuffer);
                  static_cast_unsigned timeout] in
    '(r, msg) ← mailboxCall this msg;
    if r <? 0 then mret false
    else mret (getContent msg 0 =? 0) in
  if timeout >? 0xFFFFFFFF then
    if DEBUG_MODE then mret false else rest
  else rest.

(** [Mailbox::checkReturnValue], lines 251-269. *)
Definition checkReturnValue (value : Z) : bool :=
  if negb (Z.shiftr value 31 =? 0) then value =? 0x80000000
  else false.

(** [Mailbox::allocateBuffer], lines 106-120. *)
Definition allocateBuffer (this : Mailbox) (sizeInBytes alignmentInBytes flags : Z) : M nat :=
  handle ← memAlloc this sizeInBytes
             (Z.max (static_cast_unsigned PAGE_ALIGNMENT) alignmentInBytes) flags;
  if negb (handle =? 0) then
    qpuPointer ← memLock this handle;
    hostPointer ← call_mapmem (busAddressToPhysicalAddress qpuPointer) sizeInBytes;
    new_DeviceBuffer (mkDeviceBuffer handle qpuPointer hostPointer sizeInBytes)
  else mret nullptr.

(** [Mailbox::deallocateBuffer], lines 122-137.  The buffer is reached
    through a pointer to const; each member is read where the source
    reads it. *)
Definition deallocateBuffer (this : Mailbox) (buffer : nat) : M bool :=
  hp ← member hostPointer buffer;
  _ ← (if negb (hp =? 0) then
         sz ← member size buffer;
         call_unmapmem hp sz
       else mret tt);
  h ← member memHandle buffer;
  if negb (h =? 0) then
    h1 ← member memHandle buffer;
    unlocked ← memUnlock this h1;
    if negb unlocked then mret false
    else
      h2 ← member memHandle buffer;
      freed ← memFree this h2;
      if negb freed then mret false
      else mret true
  else mret true.

(** [mbox_open], lines 73-89.  On a failure the two [std::cout] lines
    come before [errno] is read for the [throw]. *)
Definition mbox_open : M Z :=
  file_desc ← sys_open;
  if file_desc <? 0 then
    _ ← report cout_cannot_open;
    _ ← report cout_try_mknod;
    e ← get_errno;
    throw (system_error e "Failed to open mailbox")
  else mret file_desc.

(** [Mailbox::Mailbox()], lines 91-95. *)
Definition Mailbox_ctor : M Mailbox :=
  file_desc ← mbox_open;
  let this := mkMailbox file_desc in
  enabled ← enableQPU this true;
  if negb enabled then throw (runtime_error "Failed to enable QPUs!")
  else mret this.

(** [vc4cl::mailbox()], lines 271-281: the object is built by the first
    call that gets through the constructor, and kept. *)
Definition mb_reset (m : Mailbox) : M unit := fun s =>
  (Ok tt, mkState (world s) (calls s) (objects s) (Some m)).

Definition mailbox : M Mailbox := fun s =>
  match mb s with
  | Some m => (Ok m, s)
  | None => (m ← Mailbox_ctor; _ ← mb_reset m; mret m) s
  end.

(** [DeviceBuffer::~DeviceBuffer()], lines 57-61.  The destructor is
    implicitly [noexcept]: an exception from [mailbox()] or from
    [deallocateBuffer] does not reach the caller. *)
Definition DeviceBuffer_dtor (this : nat) : State -> Ending unit * State :=
  noexcept
    (h ← member memHandle this;
     if negb (h =? 0) then
       m ← mailbox;
       _ ← deallocateBuffer m this;
       mret tt
     else mret tt).

(** [Mailbox::getTotalGPUMemory], lines 166-173.  [readMailboxMessage] is
    a member of Mailbox.h; it is taken as given: it receives the message
    and yields its verdict with the message as it leaves it. *)
Definition getTotalGPUMemory
    (readMailboxMessage : Mailbox -> Buffer -> M (bool * Buffer))
    (this : Mailbox) : M Z :=
  let msg := SimpleQueryMessage VC_MEMORY in
  '(ok, msg) ← readMailboxMessage this msg;
  if negb ok then mret 0
  else mret (getContent msg 1 / 2).

End MailboxCpp.

(** ** The seven single-call operations, as one family

    Used to state facts that hold of all of them alike. *)

Inductive MailboxOp : Type :=
| OpMemAlloc (sizeInBytes alignmentInBytes flags : Z)
| OpMemLock (handle : Z)
| OpMemUnlock (handle : Z)
| OpMemFree (handle : Z)
| OpExecuteCode (codeAddress valueR0 valueR1 valueR2 valueR3 valueR4 valueR5 : Z)
| OpExecuteQPU (numQPUs : Z) (controlAddress : Z * Z) (flushBuffer : bool) (timeout : Z)
| OpEnableQPU (enable : bool).

(** What an operation hands back: a handle, a device address or a flag. *)
Inductive Value : Type :=
| VHandle (h : Z)
| VAddress (a : Z)
| VBool (b : bool).

Section Operations.
Context {H : Host} {HD : Headers}.

Definition run_op (this : Mailbox) (op : MailboxOp) : M Value :=
  match op with
  | OpMemAlloc s a f => h ← memAlloc this s a f; mret (VHandle h)
  | OpMemLock h => a ← memLock this h; mret (VAddress a)
  | OpMemUnlock h => b ← memUnlock this h; mret (VBool b)
  | OpMemFree h => b ← memFree this h; mret (VBool b)
  | OpExecuteCode c r0 r1 r2 r3 r4 r5 =>
      b ← executeCode this c r0 r1 r2 r3 r4 r5; mret (VBool b)
  | OpExecuteQPU n c f t => b ← executeQPU this n c f t; mret (VBool b)
  | OpEnableQPU e => b ← enableQPU this e; mret (VBool b)
  end.

(** The message an operation builds. *)
Definition request (op : MailboxOp) : Buffer :=
  match op with
  | OpMemAlloc s a f => MailboxMessage ALLOCATE_MEMORY 3 1 [s; a; f]
  | OpMemLock h => QueryMessage LOCK_MEMORY [h]
  | OpMemUnlock h => QueryMessage UNLOCK_MEMORY [h]
  | OpMemFree h => QueryMessage RELEASE_MEMORY [h]
  | OpExecuteCode c r0 r1 r2 r3 r4 r5 =>
      MailboxMessage EXECUTE_CODE 7 1 [c; r0; r1; r2; r3; r4; r5]
  | OpExecuteQPU n c f t =>
      MailboxMessage EXECUTE_QPU 4 1
        [n; snd c; bool_to_unsigned (negb f); static_cast_unsigned t]
  | OpEnableQPU e => QueryMessage ENABLE_QPU [bool_to_unsigned e]
  end.

(** How the answered message is read on the path where the call went
    through. *)
Definition decode (op : MailboxOp) (answer : Buffer) : Value :=
  match op with
  | OpMemAlloc _ _ _ => VHandle (getContent answer 0)
  | OpMemLock _ => VAddress (getContent answer 0)
  | OpEnableQPU _ =>
      VBool ((getContent answer 0 =? 0) || (getContent answer 0 =? 0x80000000))
  | _ => VBool (getContent answer 0 =? 0)
  end.

(** The one operation that can return before it builds a message. *)
Definition returns_early (op : MailboxOp) : bool :=
  match op with
  | OpExecuteQPU _ _ _ t => (t >? 0xFFFFFFFF) && DEBUG_MODE
  | _ => false
  end.

(** The operation with the test on the sign of [mailboxCall]'s value
    taken out: an early return, or one call whose answer is decoded. *)
Definition without_sign_test (this : Mailbox) (op : MailboxOp) : M Value :=
  if returns_early op then mret (VBool false)
  else '(_, answer) ← mailboxCall this (request op); mret (decode op answer).

(** The state after one [ioctl] on [request]. *)
Definition after_ioctl (this : Mailbox) (request : Buffer) (s : State) : State :=
  mkState (ioctl (world s) (fd this) request).2
          (calls s ++ [CallIoctl (fd this) request]) (objects s) (mb s).

Definition ioctl_ret (this : Mailbox) (request : Buffer) (s : State) : Z :=
  (ioctl (world s) (fd this) request).1.1.

Definition ioctl_answer (this : Mailbox) (request : Buffer) (s : State) : Buffer :=
  (ioctl (world s) (fd this) request).1.2.

(** The state after an [ioctl] that failed and the two diagnostics
    [mailboxCall] prints then. *)
Definition after_report (this : Mailbox) (request : Buffer) (s : State) : State :=
  mkState (diagnose
             (diagnose (ioctl (world s) (fd this) request).2
                       (cout_ioctl_failed (ioctl_ret this request s)))
             perror_mbox_property)
          (calls s ++ [CallIoctl (fd this) request]) (objects s) (mb s).

(** What [mailboxCall] throws when that [ioctl] fails: the system error
    with the [errno] found after the two diagnostics. *)
Definition call_failure (this : Mailbox) (request : Buffer) (s : State) : exn :=
  system_error (errno (world (after_report this request s)))
               "Failed to set mailbox property".

(** One call and the reading [f] of its answer: the failure is thrown, a
    call that went through gives [f] of the answered message. *)
Definition one_call {A : Type} (this : Mailbox) (request : Buffer)
    (f : Buffer -> A) (s : State) : Res A * State :=
  if ioctl_ret this request s <? 0
  then (Throw (call_failure this request s), after_report this request s)
  else (Ok (f (ioctl_answer this request s)), after_ioctl this request s).

(** The state after the unmapping step of a release of [b]. *)
Definition after_unmap (b : DeviceBuffer) (s : State) : State :=
  if hostPointer b =? 0 then s
  else mkState (unmapmem (world s) (hostPointer b) (size b))
               (calls s ++ [CallUnmap (hostPointer b) (size b)])
               (objects s) (mb s).

(** Whether a log holds a request equal to [b]. *)
Definition Buffer_eqb (a b : Buffer) : bool :=
  bool_decide (a = b).

Definition sent (b : Buffer) (log : list Call) : bool :=
  existsb (fun c => match c with
                    | CallIoctl _ r => Buffer_eqb r b
                    | _ => false
                    end) log.

(** A handle counts as released once the log holds the release request
    for it. *)
Definition released (handle : Z) (log : list Call) : bool :=
  sent (QueryMessage RELEASE_MEMORY [handle]) log.

End Operations.

(** ** Properties of the buffer operations, as predicates on one run *)

Section BufferProperties.
Context {H : Host} {HD : Headers}.

(** The alignment [allocateBuffer] passes on. *)
Definition raised_alignment (alignmentInBytes : Z) : Z :=
  Z.max (static_cast_unsigned PAGE_ALIGNMENT) alignmentInBytes.


(** "Release leaves the handle and the host pointer zeroed." *)
Definition zeroed_after_release (this : Mailbox) (p : nat) (s : State) : Prop :=
  exists b, deref p (deallocateBuffer this p s).2 = Some b
            /\ memHandle b = 0 /\ hostPointer b = 0.

(** "A second release is a no-op": it issues no call. *)
Definition second_release_silent (this : Mailbox) (p : nat) (s : State) : Prop :=
  calls (deallocateBuffer this p (deallocateBuffer this p s).2).2
  = calls (deallocateBuffer this p s).2.

(** "Allocate, then release at once: no abrupt failure, the pair zeroed,
    a second release a no-op." *)
Definition clean_round_trip (this : Mailbox)
    (sizeInBytes alignmentInBytes flags : Z) (s : State) : Prop :=
  forall p s1,
    allocateBuffer this sizeInBytes alignmentInBytes flags s = (Ok p, s1) ->
    p <> nullptr ->
    (exists r, (deallocateBuffer this p s1).1 = Ok r)
    /\ zeroed_after_release this p s1
    /\ second_release_silent this p s1.

(** The calls one release of [b] begins with: the unmapping when the host
    pointer is set, then the unlock request. *)
Definition release_prefix (this : Mailbox) (b : DeviceBuffer) : list Call :=
  (if hostPointer b =? 0 then [] else [CallUnmap (hostPointer b) (size b)])
  ++ [CallIoctl (fd this) (QueryMessage UNLOCK_MEMORY [memHandle b])].

End BufferProperties.

(** ** src/Event.h: the two baseline actions

    [Event*] and the program state a [std::function] may read and write are
    left abstract; an action maps an event and a state to a status code and
    a state. *)

Definition cl_int : Type := Z.
Definition CL_SUCCESS : cl_int := 0.

Section EventH.
Variables (EventPtr Store : Type).

(** [virtual cl_int operator()(Event* event) = 0], line 82. *)
Class EventAction (A : Type) : Type :=
  call : A -> EventPtr -> Store -> cl_int * Store.

(** [struct CustomAction], lines 96-106. *)
Record CustomAction : Type := mkCustomAction {
  func : EventPtr -> Store -> cl_int * Store
}.

#[global] Instance CustomAction_call : EventAction CustomAction :=
  fun this event st => func this event st.

(** [struct NoAction], lines 111-120; the constructor's argument
    defaults to [CL_SUCCESS]. *)
Record NoAction : Type := mkNoAction { status : cl_int }.

Definition NoAction_default : NoAction := mkNoAction CL_SUCCESS.

#[global] Instance NoAction_call : EventAction NoAction :=
  fun this event st => (status this, st).

End EventH.
Arguments call {EventPtr Store A _} _ _ _.
Arguments func {EventPtr Store} _ _ _.
Arguments mkCustomAction {EventPtr Store} _.

(** ** A concrete board, for running the definitions *)
Module Board.

(** The tag codes of the firmware's property interface. *)
Definition tag_code (t : MailboxTag) : Z :=
  match t with
  | VC_MEMORY => 0x00010006
  | ALLOCATE_MEMORY => 0x0003000c
  | LOCK_MEMORY => 0x0003000d
  | UNLOCK_MEMORY => 0x0003000e
  | RELEASE_MEMORY => 0x0003000f
  | EXECUTE_CODE => 0x00030010
  | EXECUTE_QPU => 0x00030011
  | ENABLE_QPU => 0x00030012
  end.

(** Modelled from the spec: the message layout of Mailbox.h, which is not
    under src/.  A message is [total size in bytes][request/response
    code][tag code][request size][response size][request words...] and an
    end marker, unused slots zero. *)
Definition message (t : MailboxTag) (requestSize maxResponseSize : nat)
    (request : list Z) : Buffer :=
  let contentSize := Nat.max requestSize maxResponseSize in
  [4 * Z.of_nat (contentSize + 6); 0; tag_code t;
   4 * Z.of_nat requestSize; 4 * Z.of_nat maxResponseSize]
  ++ take contentSize (request ++ replicate contentSize 0)
  ++ [0].

(** Modelled from the spec: [getContent] of Mailbox.h; content word [i]
    sits in slot [5 + i], after the five words of the header. *)
Definition content (b : Buffer) (i : nat) : Z := nth (5 + i) b 0.

(** The headers of this board: pages of 4096 bytes, as the comment in
    allocateBuffer has it, and bus addresses that carry the physical
    address in their low 30 bits. *)
Definition headers (debug : bool) : Headers := {|
  DEBUG_MODE := debug;
  PAGE_ALIGNMENT := 4096;
  busAddressToPhysicalAddress := fun a => Z.land a 0x3FFFFFFF;
  MailboxMessage := message;
  QueryMessage := fun t r => message t 1 1 r;
  SimpleQueryMessage := fun t => message t 0 2 [];
  getContent := content
|}.

(** A scripted kernel: each [ioctl] consumes the next reply, which gives
    the return value, the [errno] a failure leaves, the response code the
    firmware writes into slot 1 and the words it writes over the content
    slots. *)
Record Reply : Type := mkReply {
  rep_ret : Z;
  rep_errno : Z;
  rep_code : Z;
  rep_words : list Z
}.

(** The firmware answers with these content words. *)
Definition answers (ws : list Z) : Reply := mkReply 0 0 0x80000000 ws.

(** The system call itself fails and leaves [e] in [errno]. *)
Definition fails (e : Z) : Reply := mkReply (-1) e 0 [].

Record Script : Type := mkScript {
  replies : list Reply;
  cur_errno : Z
}.

Definition overwrite (b : Buffer) (code : Z) (ws : list Z) : Buffer :=
  take 1 b ++ [code] ++ take 3 (drop 2 b) ++ ws ++ drop (5 + length ws) b.

Definition host : Host := {|
  World := Script;
  errno := cur_errno;
  open_device := fun w => (3, w);
  ioctl := fun w _ b =>
    match replies w with
    | [] => (-1, b, mkScript [] 5)
    | r :: rs =>
        (rep_ret r,
         if rep_ret r <? 0 then b else overwrite b (rep_code r) (rep_words r),
         mkScript rs (if rep_ret r <? 0 then rep_errno r else cur_errno w))
    end;
  mapmem := fun w base _ => (base + 0x40000000, w);
  unmapmem := fun w _ _ => w;
  diagnose := fun w _ => w
|}.

Definition start (rs : list Reply) : @State host :=
  mkState (H := host) (mkScript rs 0) [] [] None.

Definition the_mailbox : Mailbox := mkMailbox 3.

(** [readMailboxMessage] for this board: one call, then the check of the
    response code in slot 1. *)
Definition readMailboxMessage {HD : Headers} (this : Mailbox) (msg : Buffer)
    : @M host (bool * Buffer) :=
  '(r, msg) ← mailboxCall this msg;
  if r <? 0 then mret (false, msg)
  else mret (checkReturnValue (nth 1 msg 0), msg).

(** The two builds. *)
Definition release_build : Headers := headers false.
Definition debug_build : Headers := headers true.

(** A firmware that grants an allocation (handle 7, bus address
    0xC0001000) and two releases of it. *)
Definition granting : @State host :=
  start [answers [7]; answers [0xC0001000];
         answers [0]; answers [0]; answers [0]; answers [0]].

(** A firmware that grants handle 7 and then answers the lock with the
    null address. *)
Definition lock_refused : @State host :=
  start [answers [7]; answers [0]].

End Board.

(** ** The life of the mailbox object and of a buffer: what the logs hold *)

Section Lifecycle.
Context {H : Host} {HD : Headers}.

(** The value [open] gives in state [s], and the state it leaves. *)
Definition open_ret (s : State) : Z := (open_device (world s)).1.

Definition after_open (s : State) : State :=
  mkState (open_device (world s)).2 (calls s ++ [CallOpen]) (objects s) (mb s).

(** The state after an [open] that failed and the two diagnostics
    [mbox_open] prints then. *)
Definition after_open_report (s : State) : State :=
  mkState (diagnose (diagnose (open_device (world s)).2 cout_cannot_open)
                    cout_try_mknod)
          (calls s ++ [CallOpen]) (objects s) (mb s).

(** The message the constructor sends: enableQPU(true). *)
Definition enable_request : Buffer :=
  QueryMessage ENABLE_QPU [bool_to_unsigned true].

(** The three requests of a buffer's life. *)
Definition alloc_request (sizeInBytes alignmentInBytes flags : Z) : Buffer :=
  MailboxMessage ALLOCATE_MEMORY 3 1
    [sizeInBytes; raised_alignment alignmentInBytes; flags].

Definition lock_request (handle : Z) : Buffer := QueryMessage LOCK_MEMORY [handle].

Definition unlock_request (handle : Z) : Buffer := QueryMessage UNLOCK_MEMORY [handle].

Definition free_request (handle : Z) : Buffer := QueryMessage RELEASE_MEMORY [handle].

(** The message executeQPU sends when the timeout word is [word]. *)
Definition qpu_request (numQPUs : Z) (controlAddress : Z * Z) (flushBuffer : bool)
    (word : Z) : Buffer :=
  MailboxMessage EXECUTE_QPU 4 1
    [numQPUs; snd controlAddress; bool_to_unsigned (negb flushBuffer); word].

End Lifecycle.

(** Further firmwares for the board. *)
Module Bench.
Import Board.

(** Grants handle 7 and its lock, then answers the unlock with 1. *)
Definition unlock_refused : @State host :=
  start [answers [7]; answers [0xC0001000]; answers [1]].

(** Grants handle 7, then the lock call itself fails with errno 5. *)
Definition lock_call_fails : @State host :=
  start [answers [7]; fails 5].

(** A state with one buffer whose handle is 0 and whose host pointer is
    set, and a mailbox in place. *)
Definition stale_buffer : @State host :=
  mkState (H := host) (mkScript [] 0) [] [mkDeviceBuffer 0 0 0x40001000 16]
          (Some the_mailbox).

(** A state with one buffer of handle 7 and no mailbox yet; the firmware
    refuses to enable the processor. *)
Definition enable_refused : @State host :=
  mkState (H := host) (mkScript [answers [1]] 0) [] [mkDeviceBuffer 7 0xC0001000 0x40001000 16]
          None.

(** A state with one buffer of handle 7, mapped at 0x40001000, a mailbox
    in place and a firmware that grants two releases. *)
Definition live_buffer : @State host :=
  mkState (H := host)
          (mkScript [answers [0]; answers [0]; answers [0]; answers [0]] 0) []
          [mkDeviceBuffer 7 0xC0001000 0x40001000 16] (Some the_mailbox).

(** The board with its error stream redirected to a place that cannot be
    written: [perror] fails there and leaves 22 in [errno]. *)
Definition muted_host : Host := {|
  World := Script;
  errno := cur_errno;
  open_device := open_device (Host := host);
  ioctl := ioctl (Host := host);
  mapmem := mapmem (Host := host);
  unmapmem := unmapmem (Host := host);
  diagnose := fun w d =>
    match d with
    | perror_mbox_property => mkScript (replies w) 22
    | _ => w
    end
|}.

(** On that board, a kernel whose next [ioctl] fails with 14. *)
Definition muted_failing : @State muted_host :=
  mkState (H := muted_host) (mkScript [fails 14] 0) [] [] None.

(** A firmware that enables the processor. *)
Definition enabling : @State host := start [answers [0]].

(** A firmware that reports 0x04c00000 bytes of graphics memory at
    0x3b400000. *)
Definition reporting_memory : @State host :=
  start [answers [0x3b400000; 0x04c00000]].

End Bench.

(** * Facts *)

(** ** The monad and the single-call operations *)

Section MailboxFacts.
Context {H : Host} {HD : Headers}.

Lemma bind_Ok {A B : Type} (m : M A) (f : A -> M B) (s s' : State) (a : A) :
  m s = (Ok a, s') -> (m ≫= f) s = f a s'.
Proof. intros E. unfold mbind, M_bind. rewrite E. reflexivity. Qed.

Lemma bind_Throw {A B : Type} (m : M A) (f : A -> M B) (s s' : State) (e : exn) :
  m s = (Throw e, s') -> (m ≫= f) s = (Throw e, s').
Proof. intros E. unfold mbind, M_bind. rewrite E. reflexivity. Qed.

Lemma bind_Undefined {A B : Type} (m : M A) (f : A -> M B) (s s' : State) :
  m s = (Undefined, s') -> (m ≫= f) s = (Undefined, s').
Proof. intros E. unfold mbind, M_bind. rewrite E. reflexivity. Qed.

(** [mailboxCall] is one [ioctl]: a negative value is thrown as the
    system error, after the two diagnostics; any other value is handed
    back with the answer. *)
Lemma mailboxCall_run (this : Mailbox) (msg : Buffer) (s : State) :
  mailboxCall this msg s =
  if ioctl_ret this msg s <? 0
  then (Throw (call_failure this msg s), after_report this msg s)
  else (Ok (ioctl_ret this msg s, ioctl_answer this msg s), after_ioctl this msg s).
Proof.
  unfold mailboxCall, sys_ioctl, call_failure, after_report, after_ioctl, ioctl_ret,
    ioctl_answer, mbind, M_bind, get_errno, report, throw, mret, M_ret.
  destruct (ioctl (world s) (fd this) msg) as [[r b] w]. simpl.
  destruct (r <? 0); reflexivity.
Qed.

(** The shape shared by the seven operations: call, test the sign, read
    the answer. *)
Lemma guarded_run {A : Type} (this : Mailbox) (msg : Buffer) (d : A)
    (f : Buffer -> A) (s : State) :
  (mailboxCall this msg ≫= (λ '(r, m), if r <? 0 then mret d else mret (f m))) s
  = one_call this msg f s.
Proof.
  unfold mbind at 1, M_bind at 1, one_call. rewrite mailboxCall_run.
  destruct (ioctl_ret this msg s <? 0) eqn:E; [reflexivity|].
  rewrite E. reflexivity.
Qed.

Lemma memAlloc_run (this : Mailbox) (sz al fl : Z) (s : State) :
  memAlloc this sz al fl s
  = one_call this (MailboxMessage ALLOCATE_MEMORY 3 1 [sz; al; fl])
             (fun m => getContent m 0) s.
Proof. apply (guarded_run this _ 0). Qed.

Lemma memLock_run (this : Mailbox) (h : Z) (s : State) :
  memLock this h s
  = one_call this (QueryMessage LOCK_MEMORY [h]) (fun m => getContent m 0) s.
Proof. apply (guarded_run this _ 0). Qed.

Lemma memUnlock_run (this : Mailbox) (h : Z) (s : State) :
  memUnlock this h s
  = one_call this (QueryMessage UNLOCK_MEMORY [h]) (fun m => getContent m 0 =? 0) s.
Proof. apply (guarded_run this _ false). Qed.

Lemma memFree_run (this : Mailbox) (h : Z) (s : State) :
  memFree this h s
  = one_call this (QueryMessage RELEASE_MEMORY [h]) (fun m => getContent m 0 =? 0) s.
Proof. apply (guarded_run this _ false). Qed.

Lemma executeCode_run (this : Mailbox) (c r0 r1 r2 r3 r4 r5 : Z) (s : State) :
  executeCode this c r0 r1 r2 r3 r4 r5 s
  = one_call this (MailboxMessage EXECUTE_CODE 7 1 [c; r0; r1; r2; r3; r4; r5])
             (fun m => getContent m 0 =? 0) s.
Proof. apply (guarded_run this _ false). Qed.

Lemma enableQPU_run (this : Mailbox) (enable : bool) (s : State) :
  enableQPU this enable s
  = one_call this (QueryMessage ENABLE_QPU [bool_to_unsigned enable])
             (fun m => (getContent m 0 =? 0) || (getContent m 0 =? 0x80000000)) s.
Proof. apply (guarded_run this _ false). Qed.

Lemma executeQPU_run (this : Mailbox) (n : Z) (c : Z * Z) (f : bool) (t : Z) (s : State) :
  executeQPU this n c f t s
  = if (t >? 0xFFFFFFFF) && DEBUG_MODE then (Ok false, s)
    else one_call this
           (MailboxMessage EXECUTE_QPU 4 1
              [n; snd c; bool_to_unsigned (negb f); static_cast_unsigned t])
           (fun m => getContent m 0 =? 0) s.
Proof.
  unfold executeQPU.
  destruct (t >? 0xFFFFFFFF); [destruct DEBUG_MODE|]; simpl;
    try reflexivity; apply (guarded_run this _ false).
Qed.

Lemma run_op_run (this : Mailbox) (op : MailboxOp) (s : State) :
  run_op this op s =
  if returns_early op then (Ok (VBool false), s)
  else one_call this (request op) (decode op) s.
Proof.
  destruct op; simpl; unfold mbind, M_bind;
    rewrite ?memAlloc_run, ?memLock_run, ?memUnlock_run, ?memFree_run,
      ?executeCode_run, ?enableQPU_run, ?executeQPU_run;
    try (unfold one_call; destruct (ioctl_ret _ _ _ <? 0); reflexivity).
  destruct ((timeout >? 0xFFFFFFFF) && DEBUG_MODE); [reflexivity|].
  unfold one_call; destruct (ioctl_ret _ _ _ <? 0); reflexivity.
Qed.

End MailboxFacts.

(** ** Failures of the channel and failures reported by the firmware *)

Section Surfacing.
Context {H : Host} {HD : Headers}.

(** X17.  Each of the seven mailbox operations (memAlloc, memLock,
    memUnlock, memFree, executeCode, executeQPU, enableQPU) ends abruptly
    only when its [ioctl] returned a negative value, and then with the
    system error whose code is [errno] as it stands after the two
    diagnostics, which is the code the [ioctl] left only if the printing
    keeps it; when the [ioctl] went through, the operation returns an
    ordinary value read off the answer (the handle, the address, or the
    flag computed from content word 0), whatever the answer says.  The
    early return of executeQPU is an ordinary [false]. *)
Theorem operations_surface_failures (this : Mailbox) (op : MailboxOp) (s : State) :
  match (run_op this op s).1 with
  | Ok v =>
      (returns_early op = true /\ v = VBool false)
      \/ (returns_early op = false
          /\ 0 <= ioctl_ret this (request op) s
          /\ v = decode op (ioctl_answer this (request op) s))
  | Throw e =>
      returns_early op = false
      /\ ioctl_ret this (request op) s < 0
      /\ e = system_error (errno (world (after_report this (request op) s)))
                          "Failed to set mailbox property"
  | Undefined => False
  end.
Proof.
  rewrite run_op_run.
  destruct (returns_early op) eqn:E; simpl; [left; split; reflexivity|].
  unfold one_call.
  destruct (Z.ltb_spec (ioctl_ret this (request op) s) 0) as [Hneg|Hpos]; simpl.
  - repeat split; assumption.
  - right. repeat split; assumption.
Qed.

(** What the answer of a call that went through turns into: a content
    word that is not 0 makes the flag [false], a zero handle or address is
    handed back as 0. *)
Lemma rejected_by_firmware (op : MailboxOp) (answer : Buffer) :
  match op with
  | OpMemAlloc _ _ _ => getContent answer 0 = 0 -> decode op answer = VHandle 0
  | OpMemLock _ => getContent answer 0 = 0 -> decode op answer = VAddress 0
  | OpEnableQPU _ =>
      getContent answer 0 <> 0 -> getContent answer 0 <> 0x80000000 ->
      decode op answer = VBool false
  | _ => getContent answer 0 <> 0 -> decode op answer = VBool false
  end.
Proof.
  destruct op; simpl; intros;
    repeat match goal with
           | E : getContent _ _ = 0 |- _ => rewrite E
           | N : getContent ?a ?i <> ?c |- _ =>
               rewrite (proj2 (Z.eqb_neq (getContent a i) c) N); clear N
           end; reflexivity.
Qed.

(** C5.  enableQPU returns [true] exactly when its [ioctl] went through
    and content word 0 of the answer is 0 or 0x80000000, the value the
    firmware gives when another holder had the processor enabled. *)
Theorem enableQPU_true_iff (this : Mailbox) (enable : bool) (s : State) :
  (enableQPU this enable s).1 = Ok true
  <-> 0 <= ioctl_ret this (QueryMessage ENABLE_QPU [bool_to_unsigned enable]) s
      /\ (getContent
            (ioctl_answer this (QueryMessage ENABLE_QPU [bool_to_unsigned enable]) s) 0 = 0
          \/ getContent
            (ioctl_answer this (QueryMessage ENABLE_QPU [bool_to_unsigned enable]) s) 0
             = 0x80000000).
Proof.
  rewrite enableQPU_run. unfold one_call.
  set (msg := QueryMessage ENABLE_QPU [bool_to_unsigned enable]).
  destruct (Z.ltb_spec (ioctl_ret this msg s) 0) as [Hneg|Hpos]; simpl.
  - split; [discriminate|]. intros [Hge _]. lia.
  - split.
    + intros E. injection E as E. split; [assumption|].
      apply orb_true_iff in E. destruct E as [E|E]; apply Z.eqb_eq in E; auto.
    + intros [_ [E|E]]; rewrite E; reflexivity.
Qed.

(** C10.  [mailboxCall] throws when [ioctl] is negative and otherwise
    returns that value unchanged, so the value it returns is never
    negative; every one of the seven operations therefore behaves as the
    same operation without its test on the sign. *)
Theorem sign_test_never_taken (this : Mailbox) (op : MailboxOp) (msg : Buffer)
    (s : State) :
  match (mailboxCall this msg s).1 with
  | Ok (r, _) => (r <? 0) = false /\ r = ioctl_ret this msg s
  | Throw _ => ioctl_ret this msg s < 0
  | Undefined => False
  end
  /\ run_op this op s = without_sign_test this op s.
Proof.
  split.
  - rewrite mailboxCall_run.
    destruct (Z.ltb_spec (ioctl_ret this msg s) 0) as [Hneg|Hpos]; simpl.
    + assumption.
    + split; [apply Z.ltb_ge; assumption | reflexivity].
  - rewrite run_op_run. unfold without_sign_test.
    destruct (returns_early op); [reflexivity|].
    unfold mbind, M_bind, one_call. rewrite mailboxCall_run.
    destruct (ioctl_ret this (request op) s <? 0); reflexivity.
Qed.

(** executeQPU built with DEBUG_MODE: a timeout above 0xFFFFFFFF is
    turned down and the state, log included, is left as it was. *)
Lemma executeQPU_debug_rejects (this : Mailbox) (n : Z) (c : Z * Z) (f : bool)
    (t : Z) (s : State) :
  DEBUG_MODE = true -> 0xFFFFFFFF < t ->
  executeQPU this n c f t s = (Ok false, s).
Proof.
  intros D Ht. rewrite executeQPU_run, D.
  rewrite (proj2 (Z.gtb_gt _ _)) by lia. reflexivity.
Qed.

(** executeQPU built without DEBUG_MODE: whatever the timeout, the call
    is issued, with the timeout reduced modulo 2^32. *)
Lemma executeQPU_release_calls (this : Mailbox) (n : Z) (c : Z * Z) (f : bool)
    (t : Z) (s : State) :
  DEBUG_MODE = false ->
  calls (executeQPU this n c f t s).2
  = calls s ++ [CallIoctl (fd this)
                  (MailboxMessage EXECUTE_QPU 4 1
                     [n; snd c; bool_to_unsigned (negb f); t mod 2 ^ 32])].
Proof.
  intros D. rewrite executeQPU_run, D, andb_false_r.
  unfold one_call. destruct (ioctl_ret _ _ _ <? 0); reflexivity.
Qed.

(** Both branches of checkReturnValue amount to the comparison with
    0x80000000. *)
Lemma checkReturnValue_eqb (value : Z) :
  checkReturnValue value = (value =? 0x80000000).
Proof.
  unfold checkReturnValue.
  destruct (Z.shiftr value 31 =? 0) eqn:E; simpl; [|reflexivity].
  symmetry. apply Z.eqb_neq. intros ->. discriminate E.
Qed.

(** A value with bit 31 clear takes the second branch. *)
Lemma checkReturnValue_high_bit_clear (value : Z) :
  0 <= value < 2 ^ 31 -> checkReturnValue value = false.
Proof.
  intros Hv. rewrite checkReturnValue_eqb. apply Z.eqb_neq. lia.
Qed.

(** C9.  checkReturnValue holds of 0x80000000 and of no other value: a
    value with bit 31 clear fails, and so does any other value with bit 31
    set, 0x80000001 and 0x80000002 among them. *)
Theorem checkReturnValue_exact (value : Z) :
  (checkReturnValue value = true <-> value = 0x80000000)
  /\ checkReturnValue 0x80000001 = false
  /\ checkReturnValue 0x80000002 = false.
Proof.
  split; [|split; reflexivity].
  rewrite checkReturnValue_eqb. apply Z.eqb_eq.
Qed.


(** C7.  getTotalGPUMemory returns content word 1 of the answered
    message divided by two when the read reports success, and 0 when it
    reports failure. *)
Theorem getTotalGPUMemory_half
    (readMailboxMessage : Mailbox -> Buffer -> M (bool * Buffer))
    (this : Mailbox) (s : State) :
  getTotalGPUMemory readMailboxMessage this s =
  match readMailboxMessage this (SimpleQueryMessage VC_MEMORY) s with
  | (Ok (true, msg), s') => (Ok (getContent msg 1 / 2), s')
  | (Ok (false, _), s') => (Ok 0, s')
  | (Throw e, s') => (Throw e, s')
  | (Undefined, s') => (Undefined, s')
  end.
Proof.
  unfold getTotalGPUMemory, mbind, M_bind.
  destruct (readMailboxMessage this (SimpleQueryMessage VC_MEMORY) s)
    as [[[[] msg]|e|] s']; reflexivity.
Qed.

End Surfacing.

(** ** Event actions *)

(** C8.  A NoAction returns the status it was built with, for every event
    and leaving the state alone; a CustomAction returns what the wrapped
    function returns on the event. *)
Theorem actions_return {EventPtr Store : Type} :
  (forall (st : cl_int) (event : EventPtr) (store : Store),
      call (mkNoAction st) event store = (st, store))
  /\ (forall (f : EventPtr -> Store -> cl_int * Store) (event : EventPtr) (store : Store),
      call (mkCustomAction f) event store = f event store).
Proof. split; reflexivity. Qed.

(** Built without an argument, a NoAction returns [CL_SUCCESS]. *)
Lemma NoAction_default_returns {EventPtr Store : Type} (event : EventPtr) (store : Store) :
  call NoAction_default event store = (CL_SUCCESS, store).
Proof. reflexivity. Qed.

(** ** Buffers: allocation and release *)

Section BufferFacts.
Context {H : Host} {HD : Headers}.

(** memAlloc puts the alignment it is given into the message as it is. *)
Lemma memAlloc_sends (this : Mailbox) (sz al fl : Z) (s : State) :
  calls (memAlloc this sz al fl s).2
  = calls s ++ [CallIoctl (fd this) (MailboxMessage ALLOCATE_MEMORY 3 1 [sz; al; fl])].
Proof.
  rewrite memAlloc_run. unfold one_call.
  destruct (ioctl_ret _ _ _ <? 0); reflexivity.
Qed.

(** allocateBuffer, step by step. *)
Lemma allocateBuffer_run (this : Mailbox) (sz al fl : Z) (s : State) :
  allocateBuffer this sz al fl s =
  match memAlloc this sz (raised_alignment al) fl s with
  | (Ok handle, s1) =>
      if handle =? 0 then (Ok nullptr, s1)
      else
        match memLock this handle s1 with
        | (Ok q, s2) =>
            (Ok (S (length (objects s2))),
             mkState (mapmem (world s2) (busAddressToPhysicalAddress q) sz).2
                     (calls s2 ++ [CallMap (busAddressToPhysicalAddress q) sz])
                     (objects s2
                      ++ [mkDeviceBuffer handle q
                            (mapmem (world s2) (busAddressToPhysicalAddress q) sz).1 sz])
                     (mb s2))
        | (Throw e, s2) => (Throw e, s2)
        | (Undefined, s2) => (Undefined, s2)
        end
  | (Throw e, s1) => (Throw e, s1)
  | (Undefined, s1) => (Undefined, s1)
  end.
Proof.
  unfold allocateBuffer, raised_alignment, mbind, M_bind.
  destruct (memAlloc _ _ _ _ s) as [[handle|e|] s1]; try reflexivity.
  destruct (handle =? 0); simpl; [reflexivity|].
  destruct (memLock this handle s1) as [[q|e|] s2]; try reflexivity.
  unfold call_mapmem, new_DeviceBuffer.
  destruct (mapmem (world s2) (busAddressToPhysicalAddress q) sz) as [p w].
  reflexivity.
Qed.

(** C6.  The allocation request that allocateBuffer sends carries, as its
    alignment word, the larger of the page alignment and the alignment
    the caller asked for, which is therefore at least the page
    alignment. *)
Theorem allocateBuffer_raises_alignment (this : Mailbox) (sz al fl : Z) (s : State) :
  0 <= PAGE_ALIGNMENT < 2 ^ 32 ->
  (exists rest,
      calls (allocateBuffer this sz al fl s).2
      = calls s
        ++ CallIoctl (fd this)
             (MailboxMessage ALLOCATE_MEMORY 3 1 [sz; Z.max PAGE_ALIGNMENT al; fl])
        :: rest)
  /\ PAGE_ALIGNMENT <= Z.max PAGE_ALIGNMENT al
  /\ al <= Z.max PAGE_ALIGNMENT al.
Proof.
  intros Hpage. split; [|lia].
  assert (Hcast : raised_alignment al = Z.max PAGE_ALIGNMENT al).
  { unfold raised_alignment, static_cast_unsigned. rewrite Z.mod_small by lia.
    reflexivity. }
  rewrite allocateBuffer_run.
  pose proof (memAlloc_sends this sz (raised_alignment al) fl s) as Hlog.
  rewrite Hcast in *.
  destruct (memAlloc this sz (Z.max PAGE_ALIGNMENT al) fl s) as [[handle|e|] s1];
    simpl in Hlog; try (exists []; exact Hlog).
  destruct (handle =? 0); [exists []; exact Hlog|].
  rewrite memLock_run. unfold one_call.
  destruct (ioctl_ret _ _ _ <? 0); simpl; rewrite Hlog, <- ?app_assoc; simpl;
    eexists; reflexivity.
Qed.


End BufferFacts.

(** ** Release *)

Section ReleaseFacts.
Context {H : Host} {HD : Headers}.

Lemma member_run {A : Type} (f : DeviceBuffer -> A) (p : nat) (b : DeviceBuffer)
    (s : State) :
  deref p s = Some b -> member f p s = (Ok (f b), s).
Proof. intros E. unfold member. rewrite E. reflexivity. Qed.

(** Reading through a pointer looks at the objects only. *)
Lemma deref_objects (p : nat) (s s' : State) :
  objects s' = objects s -> deref p s' = deref p s.
Proof. intros E. unfold deref. rewrite E. reflexivity. Qed.

Lemma after_unmap_objects (b : DeviceBuffer) (s : State) :
  objects (after_unmap b s) = objects s.
Proof. unfold after_unmap. destruct (hostPointer b =? 0); reflexivity. Qed.

Lemma after_unmap_calls (b : DeviceBuffer) (s : State) :
  calls (after_unmap b s)
  = calls s ++ (if hostPointer b =? 0 then []
                else [CallUnmap (hostPointer b) (size b)]).
Proof.
  unfold after_unmap. destruct (hostPointer b =? 0); simpl;
    [rewrite app_nil_r|]; reflexivity.
Qed.

Lemma one_call_objects {A : Type} (this : Mailbox) (msg : Buffer) (f : Buffer -> A)
    (s : State) :
  objects (one_call this msg f s).2 = objects s.
Proof. unfold one_call. destruct (ioctl_ret _ _ _ <? 0); reflexivity. Qed.

Lemma one_call_calls {A : Type} (this : Mailbox) (msg : Buffer) (f : Buffer -> A)
    (s : State) :
  calls (one_call this msg f s).2 = calls s ++ [CallIoctl (fd this) msg].
Proof. unfold one_call. destruct (ioctl_ret _ _ _ <? 0); reflexivity. Qed.

(** What [one_call] can end with. *)
Lemma one_call_outcome {A : Type} (this : Mailbox) (msg : Buffer) (f : Buffer -> A)
    (s : State) :
  match (one_call this msg f s).1 with
  | Ok _ => True
  | Throw e => exists c, e = system_error c "Failed to set mailbox property"
  | Undefined => False
  end.
Proof.
  unfold one_call. destruct (ioctl_ret _ _ _ <? 0); simpl; [|exact I].
  eexists. reflexivity.
Qed.

(** deallocateBuffer on a pointer to [b]: the unmapping when the host
    pointer is set, then, when the handle is set, the unlock and, if that
    reports success, the free. *)
Lemma deallocateBuffer_run (this : Mailbox) (p : nat) (b : DeviceBuffer) (s : State) :
  deref p s = Some b ->
  deallocateBuffer this p s =
  if memHandle b =? 0 then (Ok true, after_unmap b s)
  else
    match memUnlock this (memHandle b) (after_unmap b s) with
    | (Ok true, s1) =>
        match memFree this (memHandle b) s1 with
        | (Ok freed, s2) => (Ok freed, s2)
        | (Throw e, s2) => (Throw e, s2)
        | (Undefined, s2) => (Undefined, s2)
        end
    | (Ok false, s1) => (Ok false, s1)
    | (Throw e, s1) => (Throw e, s1)
    | (Undefined, s1) => (Undefined, s1)
    end.
Proof.
  intros Hb. unfold deallocateBuffer.
  rewrite (bind_Ok _ _ s s (hostPointer b)) by (apply member_run; assumption).
  assert (Hb' : deref p (after_unmap b s) = Some b).
  { rewrite (deref_objects p s) by apply after_unmap_objects. assumption. }
  rewrite (bind_Ok _ _ s (after_unmap b s) tt).
  2:{ unfold after_unmap. destruct (hostPointer b =? 0); simpl; [reflexivity|].
      rewrite (bind_Ok _ _ s s (size b)) by (apply member_run; assumption).
      reflexivity. }
  rewrite (bind_Ok _ _ _ _ (memHandle b)) by (apply member_run; eassumption).
  destruct (memHandle b =? 0); simpl; [reflexivity|].
  rewrite (bind_Ok _ _ _ _ (memHandle b)) by (apply member_run; eassumption).
  pose proof (one_call_objects this (QueryMessage UNLOCK_MEMORY [memHandle b])
                (fun m => getContent m 0 =? 0) (after_unmap b s)) as Hobj.
  rewrite <- memUnlock_run in Hobj.
  unfold mbind at 1, M_bind at 1.
  destruct (memUnlock this (memHandle b) (after_unmap b s)) as [[[]|e|] s1];
    simpl; try reflexivity.
  simpl in Hobj.
  rewrite (bind_Ok _ _ s1 s1 (memHandle b)).
  2:{ apply member_run. rewrite (deref_objects p (after_unmap b s)); assumption. }
  unfold mbind, M_bind.
  destruct (memFree this (memHandle b) s1) as [[[]|e|] s2]; reflexivity.
Qed.

(** Release never writes to the buffer objects. *)
Lemma deallocateBuffer_objects (this : Mailbox) (p : nat) (s : State) :
  objects (deallocateBuffer this p s).2 = objects s.
Proof.
  destruct (deref p s) as [b|] eqn:Hb.
  - rewrite (deallocateBuffer_run this p b s Hb).
    destruct (memHandle b =? 0); [apply after_unmap_objects|].
    rewrite memUnlock_run.
    pose proof (one_call_objects this (QueryMessage UNLOCK_MEMORY [memHandle b])
                  (fun m => getContent m 0 =? 0) (after_unmap b s)) as H1.
    destruct (one_call _ _ _ (after_unmap b s)) as [[[]|e|] s1]; simpl in *;
      rewrite <- (after_unmap_objects b s), <- H1; try reflexivity.
    rewrite memFree_run.
    pose proof (one_call_objects this (QueryMessage RELEASE_MEMORY [memHandle b])
                  (fun m => getContent m 0 =? 0) s1) as H2.
    destruct (one_call _ _ _ s1) as [[freed|e|] s2]; simpl in *; assumption.
  - unfold deallocateBuffer, mbind, M_bind, member. rewrite Hb. reflexivity.
Qed.

(** A release of a buffer whose handle is set begins with the unmapping
    (when the host pointer is set) and the unlock request. *)
Lemma deallocateBuffer_calls (this : Mailbox) (p : nat) (b : DeviceBuffer) (s : State) :
  deref p s = Some b -> memHandle b <> 0 ->
  exists rest,
    calls (deallocateBuffer this p s).2 = calls s ++ release_prefix this b ++ rest.
Proof.
  intros Hb Hh. rewrite (deallocateBuffer_run this p b s Hb).
  rewrite (proj2 (Z.eqb_neq _ _) Hh), memUnlock_run.
  pose proof (one_call_calls this (QueryMessage UNLOCK_MEMORY [memHandle b])
                (fun m => getContent m 0 =? 0) (after_unmap b s)) as H1.
  rewrite after_unmap_calls, <- app_assoc in H1. fold (release_prefix this b) in H1.
  destruct (one_call _ _ _ (after_unmap b s)) as [[[]|e|] s1]; simpl in *;
    try (exists []; rewrite app_nil_r; exact H1).
  rewrite memFree_run.
  pose proof (one_call_calls this (QueryMessage RELEASE_MEMORY [memHandle b])
                (fun m => getContent m 0 =? 0) s1) as H2.
  destruct (one_call _ _ _ s1) as [[freed|e|] s2]; simpl in *;
    rewrite H2, H1, <- !app_assoc; eexists; reflexivity.
Qed.

(** A release of an existing buffer ends with a flag or with the system
    error of a failed call. *)
Lemma deallocateBuffer_outcome (this : Mailbox) (p : nat) (b : DeviceBuffer) (s : State) :
  deref p s = Some b ->
  match (deallocateBuffer this p s).1 with
  | Ok _ => True
  | Throw e => exists c, e = system_error c "Failed to set mailbox property"
  | Undefined => False
  end.
Proof.
  intros Hb. rewrite (deallocateBuffer_run this p b s Hb).
  destruct (memHandle b =? 0); [exact I|].
  rewrite memUnlock_run.
  pose proof (one_call_outcome this (QueryMessage UNLOCK_MEMORY [memHandle b])
                (fun m => getContent m 0 =? 0) (after_unmap b s)) as H1.
  destruct (one_call _ _ _ (after_unmap b s)) as [[[]|e|] s1]; simpl in *;
    try assumption.
  rewrite memFree_run.
  pose proof (one_call_outcome this (QueryMessage RELEASE_MEMORY [memHandle b])
                (fun m => getContent m 0 =? 0) s1) as H2.
  destruct (one_call _ _ _ s1) as [[freed|e|] s2]; simpl in *; assumption.
Qed.

(** A buffer that allocateBuffer returned exists and holds a handle
    that is not 0. *)
Lemma allocateBuffer_gives_handle (this : Mailbox) (sz al fl : Z) (s s1 : State) (p : nat) :
  allocateBuffer this sz al fl s = (Ok p, s1) -> p <> nullptr ->
  exists b, deref p s1 = Some b /\ memHandle b <> 0.
Proof.
  rewrite allocateBuffer_run. intros E Hp.
  destruct (memAlloc this sz (raised_alignment al) fl s) as [[handle|e|] s0];
    try discriminate.
  destruct (Z.eqb_spec handle 0) as [->|Hne].
  - injection E as <- _. contradiction.
  - destruct (memLock this handle s0) as [[q|e|] s2]; try discriminate.
    injection E as <- <-. eexists. split.
    + unfold deref. simpl. rewrite lookup_app_r by reflexivity.
      rewrite Nat.sub_diag. reflexivity.
    + exact Hne.
Qed.

(** C3, without the zeroing.  After allocateBuffer, releasing the buffer
    with deallocateBuffer ends with a flag or with the system error of a
    failed call, and leaves the buffer object as it was: the handle is
    still the one allocated, not 0.  A second release of the same object
    issues the unmapping and the unlock request again. *)
Theorem release_leaves_buffer_unchanged (this : Mailbox) (sz al fl : Z)
    (s s1 : State) (p : nat) :
  allocateBuffer this sz al fl s = (Ok p, s1) -> p <> nullptr ->
  exists b,
    deref p s1 = Some b /\ memHandle b <> 0
    /\ match (deallocateBuffer this p s1).1 with
       | Ok _ => True
       | Throw e => exists c, e = system_error c "Failed to set mailbox property"
       | Undefined => False
       end
    /\ deref p (deallocateBuffer this p s1).2 = Some b
    /\ (exists rest,
           calls (deallocateBuffer this p s1).2
           = calls s1 ++ release_prefix this b ++ rest)
    /\ (exists rest,
           calls (deallocateBuffer this p (deallocateBuffer this p s1).2).2
           = calls (deallocateBuffer this p s1).2 ++ release_prefix this b ++ rest).
Proof.
  intros Ha Hp.
  destruct (allocateBuffer_gives_handle this sz al fl s s1 p Ha Hp) as [b [Hb Hh]].
  assert (Hb' : deref p (deallocateBuffer this p s1).2 = Some b).
  { rewrite (deref_objects p s1) by apply deallocateBuffer_objects. exact Hb. }
  exists b. repeat split; try assumption.
  - apply (deallocateBuffer_outcome this p b s1 Hb).
  - apply (deallocateBuffer_calls this p b s1 Hb Hh).
  - apply (deallocateBuffer_calls this p b _ Hb' Hh).
Qed.

(** The destructor releases through the mailbox when the handle is set
    and does nothing otherwise; an exception of the release ends the
    program. *)
Lemma DeviceBuffer_dtor_run (this : nat) (b : DeviceBuffer) (m : Mailbox) (s : State) :
  deref this s = Some b -> mb s = Some m ->
  DeviceBuffer_dtor this s =
  if memHandle b =? 0 then (Returned tt, s)
  else
    match deallocateBuffer m this s with
    | (Ok _, s') => (Returned tt, s')
    | (Throw _, s') => (Terminated, s')
    | (Undefined, s') => (UndefinedBehaviour, s')
    end.
Proof.
  intros Hb Hm. unfold DeviceBuffer_dtor, noexcept.
  rewrite (bind_Ok _ _ s s (memHandle b)) by (apply member_run; assumption).
  destruct (memHandle b =? 0); simpl; [reflexivity|].
  rewrite (bind_Ok _ _ s s m) by (unfold mailbox; rewrite Hm; reflexivity).
  unfold mbind, M_bind.
  destruct (deallocateBuffer m this s) as [[r|e|] s']; reflexivity.
Qed.

End ReleaseFacts.

(** ** Runs on the board *)

Section OnTheBoard.
Import Board.
#[local] Existing Instance host.

(** C1, on a build without DEBUG_MODE.  executeQPU with a timeout of
    0x100000000 ms does not turn the request down: it issues the call,
    with 0 as the timeout word, and returns what the firmware answers,
    here success. *)
Theorem executeQPU_release_build_takes_wide_timeout :
  executeQPU (HD := release_build) the_mailbox 1 (0, 0) true 0x100000000
             (start [answers [0]])
  = (Ok true,
     mkState (mkScript [] 0)
             [CallIoctl 3 (message EXECUTE_QPU 4 1 [1; 0; 0; 0])] [] None).
Proof. vm_compute. reflexivity. Qed.

(** The same call on a build with DEBUG_MODE is turned down before any
    call is issued. *)
Example executeQPU_debug_build_rejects_wide_timeout :
  executeQPU (HD := debug_build) the_mailbox 1 (0, 0) true 0x100000000
             (start [answers [0]])
  = (Ok false, start [answers [0]]).
Proof. apply (executeQPU_debug_rejects (HD := debug_build)); [reflexivity | lia]. Qed.


(** The whole run on that firmware: three calls, one object, handle 7
    kept. *)
Example lock_refused_run :
  allocateBuffer (HD := release_build) the_mailbox 16 0 0 lock_refused
  = (Ok 1%nat,
     mkState (mkScript [] 0)
             [CallIoctl 3 (message ALLOCATE_MEMORY 3 1 [16; 4096; 0]);
              CallIoctl 3 (message LOCK_MEMORY 1 1 [7]);
              CallMap 0 16]
             [mkDeviceBuffer 7 0 0x40000000 16] None).
Proof. vm_compute. reflexivity. Qed.

(** No release request for handle 7 is in its log. *)
Example lock_refused_not_released :
  released (HD := release_build) 7
    (calls (allocateBuffer (HD := release_build) the_mailbox 16 0 0 lock_refused).2)
  = false.
Proof. vm_compute. reflexivity. Qed.


(** C3, the zeroing by release, does not hold: after allocation and
    release on a granting firmware the buffer still holds handle 7. *)
Lemma release_does_not_zero :
  ~ clean_round_trip (HD := release_build) the_mailbox 16 0 0 granting.
Proof.
  intros Hc.
  destruct (Hc 1%nat
              (allocateBuffer (HD := release_build) the_mailbox 16 0 0 granting).2)
    as [_ [[b [Hb [Hh _]]] _]].
  - vm_compute. reflexivity.
  - discriminate.
  - vm_compute in Hb. injection Hb as <-. discriminate Hh.
Qed.

(** On that firmware the second release is not silent either: it sends
    the unmapping, the unlock and the free once more. *)
Example second_release_repeats_calls :
  drop 6 (calls
    (deallocateBuffer (HD := release_build) the_mailbox 1
       (deallocateBuffer (HD := release_build) the_mailbox 1
          (allocateBuffer (HD := release_build) the_mailbox 16 0 0 granting).2).2).2)
  = [CallUnmap 0x40001000 16;
     CallIoctl 3 (message UNLOCK_MEMORY 1 1 [7]);
     CallIoctl 3 (message RELEASE_MEMORY 1 1 [7])].
Proof. vm_compute. reflexivity. Qed.

(** C3 on that firmware: the buffer allocated is object 1, and after its
    release it still holds a handle that is not 0. *)
Lemma release_on_granting_board :
  allocateBuffer (HD := release_build) the_mailbox 16 0 0 granting
  = (Ok 1%nat, (allocateBuffer (HD := release_build) the_mailbox 16 0 0 granting).2)
  /\ 1%nat <> nullptr
  /\ exists b,
      deref 1
        (deallocateBuffer (HD := release_build) the_mailbox 1
           (allocateBuffer (HD := release_build) the_mailbox 16 0 0 granting).2).2
      = Some b
      /\ memHandle b <> 0.
Proof.
  split; [vm_compute; reflexivity|]. split; [discriminate|].
  destruct (release_leaves_buffer_unchanged (HD := release_build)
              the_mailbox 16 0 0 granting
              (allocateBuffer (HD := release_build) the_mailbox 16 0 0 granting).2 1%nat)
    as [b [_ [Hh [_ [Hb _]]]]].
  - vm_compute. reflexivity.
  - discriminate.
  - exists b. split; assumption.
Defined.

(** C6 at a concrete input: alignment 0 asked, 4096 sent. *)
Lemma allocateBuffer_raises_alignment_on_board :
  0 <= PAGE_ALIGNMENT (Headers := release_build) < 2 ^ 32
  /\ exists rest,
      calls (allocateBuffer (HD := release_build) the_mailbox 16 0 0 granting).2
      = CallIoctl 3 (message ALLOCATE_MEMORY 3 1 [16; 4096; 0]) :: rest.
Proof.
  assert (Hpage : 0 <= PAGE_ALIGNMENT (Headers := release_build) < 2 ^ 32)
    by (simpl; lia).
  split; [exact Hpage|].
  destruct (allocateBuffer_raises_alignment (HD := release_build)
              the_mailbox 16 0 0 granting Hpage) as [[rest Hrest] _].
  exists rest. exact Hrest.
Defined.

(** getTotalGPUMemory with the board's read: the firmware reports
    0x04c00000 bytes in content word 1, half of it is returned; a
    response code other than 0x80000000 gives 0. *)
Example getTotalGPUMemory_on_board :
  (getTotalGPUMemory (HD := release_build) (readMailboxMessage (HD := release_build))
     the_mailbox (start [answers [0x3b400000; 0x04c00000]])).1
  = Ok 0x02600000
  /\ (getTotalGPUMemory (HD := release_build) (readMailboxMessage (HD := release_build))
        the_mailbox (start [mkReply 0 0 0x80000001 [0x3b400000; 0x04c00000]])).1
     = Ok 0.
Proof. split; vm_compute; reflexivity. Qed.

(** enableQPU when another holder has the processor enabled. *)
Example enableQPU_already_enabled :
  (enableQPU (HD := release_build) the_mailbox true (start [answers [0x80000000]])).1
  = Ok true.
Proof. vm_compute. reflexivity. Qed.

(** On this board, whose printing leaves [errno] alone, a failed system
    call surfaces as the system error with the [errno] of the call. *)
Example memLock_channel_failure :
  (memLock (HD := release_build) the_mailbox 7 (start [fails 14])).1
  = Throw (system_error 14 "Failed to set mailbox property").
Proof. vm_compute. reflexivity. Qed.

End OnTheBoard.

(** * Further facts: what the rest of Mailbox.cpp does *)

(** ** One call per operation *)

Section OneCall.
Context {H : Host} {HD : Headers}.

Lemma one_call_mb {A : Type} (this : Mailbox) (msg : Buffer) (f : Buffer -> A)
    (s : State) :
  mb (one_call this msg f s).2 = mb s.
Proof. unfold one_call. destruct (ioctl_ret _ _ _ <? 0); reflexivity. Qed.

(** X1.  Each of the seven operations issues exactly one [ioctl], which
    carries the message built from its arguments, or none when executeQPU
    returns early; none of them touches a buffer object or the mailbox
    singleton. *)
Theorem operations_issue_one_call (this : Mailbox) (op : MailboxOp) (s : State) :
  calls (run_op this op s).2
  = calls s ++ (if returns_early op then [] else [CallIoctl (fd this) (request op)])
  /\ objects (run_op this op s).2 = objects s
  /\ mb (run_op this op s).2 = mb s.
Proof.
  rewrite run_op_run.
  destruct (returns_early op); simpl.
  - rewrite app_nil_r. repeat split.
  - split; [apply one_call_calls|]. split; [apply one_call_objects | apply one_call_mb].
Qed.

(** X2.  A timeout between 0 and 0xFFFFFFFF is sent as it is, whether
    DEBUG_MODE is defined or not. *)
Theorem executeQPU_timeout_in_range (this : Mailbox) (n : Z) (c : Z * Z) (f : bool)
    (t : Z) (s : State) :
  0 <= t <= 0xFFFFFFFF ->
  executeQPU this n c f t s
  = one_call this (qpu_request n c f t) (fun m => getContent m 0 =? 0) s.
Proof.
  intros Ht. rewrite executeQPU_run.
  replace (t >? 0xFFFFFFFF) with false
    by (symmetry; rewrite Z.gtb_ltb; apply Z.ltb_ge; lia).
  simpl. unfold qpu_request, static_cast_unsigned.
  rewrite Z.mod_small by lia. reflexivity.
Qed.

(** X3.  A negative timeout is never turned down, in either build: the
    call is issued and the timeout word is the timeout plus 2^32, so -1 ms
    is sent as 0xFFFFFFFF. *)
Theorem executeQPU_negative_timeout (this : Mailbox) (n : Z) (c : Z * Z) (f : bool)
    (t : Z) (s : State) :
  - 2 ^ 32 <= t < 0 ->
  executeQPU this n c f t s
  = one_call this (qpu_request n c f (t + 2 ^ 32)) (fun m => getContent m 0 =? 0) s.
Proof.
  intros Ht. rewrite executeQPU_run.
  replace (t >? 0xFFFFFFFF) with false
    by (symmetry; rewrite Z.gtb_ltb; apply Z.ltb_ge; lia).
  simpl. unfold qpu_request, static_cast_unsigned.
  replace (t mod 2 ^ 32) with (t + 2 ^ 32); [reflexivity|].
  apply (Z.mod_unique t (2 ^ 32) (-1) (t + 2 ^ 32)); lia.
Qed.

End OneCall.

(** ** The constructor and the singleton *)

Section Singleton.
Context {H : Host} {HD : Headers}.

Lemma mbox_open_run (s : State) :
  mbox_open s =
  if open_ret s <? 0
  then (Throw (system_error (errno (world (after_open_report s)))
                            "Failed to open mailbox"),
        after_open_report s)
  else (Ok (open_ret s), after_open s).
Proof.
  unfold mbox_open, sys_open, open_ret, after_open, after_open_report, mbind, M_bind,
    get_errno, report, throw, mret, M_ret.
  destruct (open_device (world s)) as [r w]. simpl.
  destruct (r <? 0); reflexivity.
Qed.

(** The constructor, step by step. *)
Lemma Mailbox_ctor_run (s : State) :
  Mailbox_ctor s =
  if open_ret s <? 0
  then (Throw (system_error (errno (world (after_open_report s)))
                            "Failed to open mailbox"),
        after_open_report s)
  else
    match enableQPU (mkMailbox (open_ret s)) true (after_open s) with
    | (Ok true, s') => (Ok (mkMailbox (open_ret s)), s')
    | (Ok false, s') => (Throw (runtime_error "Failed to enable QPUs!"), s')
    | (Throw e, s') => (Throw e, s')
    | (Undefined, s') => (Undefined, s')
    end.
Proof.
  unfold Mailbox_ctor. unfold mbind at 1, M_bind at 1. rewrite mbox_open_run.
  destruct (open_ret s <? 0); [reflexivity|].
  unfold mbind, M_bind.
  destruct (enableQPU _ true (after_open s)) as [[[]|e|] s']; reflexivity.
Qed.

Lemma Mailbox_ctor_mb (s : State) : mb (Mailbox_ctor s).2 = mb s.
Proof.
  rewrite Mailbox_ctor_run, enableQPU_run.
  destruct (open_ret s <? 0); [reflexivity|].
  pose proof (one_call_mb (mkMailbox (open_ret s))
                (QueryMessage ENABLE_QPU [bool_to_unsigned true])
                (fun m => (getContent m 0 =? 0) || (getContent m 0 =? 0x80000000))
                (after_open s)) as Hm.
  destruct (one_call _ _ _ (after_open s)) as [[[]|e|] s']; exact Hm.
Qed.

Lemma Mailbox_ctor_objects (s : State) : objects (Mailbox_ctor s).2 = objects s.
Proof.
  rewrite Mailbox_ctor_run, enableQPU_run.
  destruct (open_ret s <? 0); [reflexivity|].
  pose proof (one_call_objects (mkMailbox (open_ret s))
                (QueryMessage ENABLE_QPU [bool_to_unsigned true])
                (fun m => (getContent m 0 =? 0) || (getContent m 0 =? 0x80000000))
                (after_open s)) as Hm.
  destruct (one_call _ _ _ (after_open s)) as [[[]|e|] s']; exact Hm.
Qed.

Lemma Mailbox_ctor_calls (s : State) :
  0 <= open_ret s ->
  calls (Mailbox_ctor s).2
  = calls s ++ [CallOpen; CallIoctl (open_ret s) enable_request].
Proof.
  intros Hpos. rewrite Mailbox_ctor_run, enableQPU_run. fold enable_request.
  rewrite (proj2 (Z.ltb_ge _ _) Hpos).
  pose proof (one_call_calls (mkMailbox (open_ret s)) enable_request
                (fun m => (getContent m 0 =? 0) || (getContent m 0 =? 0x80000000))
                (after_open s)) as Hc.
  simpl in Hc. rewrite <- app_assoc in Hc.
  destruct (one_call _ _ _ (after_open s)) as [[[]|e|] s']; exact Hc.
Qed.

(** X4.  The constructor returns a mailbox only when [open] gave a
    descriptor that is not negative and the firmware answered the enabling
    request with 0 or 0x80000000; the mailbox holds that descriptor.  When
    [open] fails it throws the system error, with [errno] as it stands
    after the two diagnostics, without issuing any [ioctl];
    when the firmware answers anything else it throws the runtime error.
    It issues the [open], then at most the one enabling request, and
    leaves objects and singleton alone. *)
Theorem Mailbox_ctor_cases (s : State) :
  match (Mailbox_ctor s).1 with
  | Ok m =>
      m = mkMailbox (open_ret s) /\ 0 <= open_ret s
      /\ 0 <= ioctl_ret m enable_request (after_open s)
      /\ (getContent (ioctl_answer m enable_request (after_open s)) 0 = 0
          \/ getContent (ioctl_answer m enable_request (after_open s)) 0 = 0x80000000)
  | Throw (system_error c what) =>
      (open_ret s < 0 /\ what = "Failed to open mailbox"%string
       /\ c = errno (world (after_open_report s))
       /\ calls (Mailbox_ctor s).2 = calls s ++ [CallOpen])
      \/ (0 <= open_ret s /\ what = "Failed to set mailbox property"%string
          /\ ioctl_ret (mkMailbox (open_ret s)) enable_request (after_open s) < 0)
  | Throw (runtime_error what) =>
      0 <= open_ret s /\ what = "Failed to enable QPUs!"%string
      /\ getContent
           (ioctl_answer (mkMailbox (open_ret s)) enable_request (after_open s)) 0 <> 0
      /\ getContent
           (ioctl_answer (mkMailbox (open_ret s)) enable_request (after_open s)) 0
         <> 0x80000000
  | Undefined => False
  end
  /\ (0 <= open_ret s ->
      calls (Mailbox_ctor s).2
      = calls s ++ [CallOpen; CallIoctl (open_ret s) enable_request])
  /\ objects (Mailbox_ctor s).2 = objects s
  /\ mb (Mailbox_ctor s).2 = mb s.
Proof.
  split; [|split; [apply Mailbox_ctor_calls|split;
                   [apply Mailbox_ctor_objects | apply Mailbox_ctor_mb]]].
  rewrite Mailbox_ctor_run, enableQPU_run. fold enable_request.
  destruct (Z.ltb_spec (open_ret s) 0) as [Hneg|Hpos]; simpl.
  { left. repeat split; assumption. }
  set (this := mkMailbox (open_ret s)). unfold one_call.
  destruct (Z.ltb_spec (ioctl_ret this enable_request (after_open s)) 0)
    as [Hcall|Hcall]; simpl.
  { right. repeat split; assumption. }
  destruct (Z.eqb_spec (getContent (ioctl_answer this enable_request (after_open s)) 0) 0)
    as [E0|E0]; simpl.
  { repeat split; auto. }
  destruct (Z.eqb_spec (getContent (ioctl_answer this enable_request (after_open s)) 0)
              0x80000000) as [E1|E1]; simpl.
  { repeat split; auto. }
  repeat split; assumption.
Qed.

(** The constructor reads through no pointer. *)
Lemma Mailbox_ctor_defined (s : State) : (Mailbox_ctor s).1 <> Undefined.
Proof.
  rewrite Mailbox_ctor_run, enableQPU_run.
  destruct (open_ret s <? 0); [discriminate|].
  unfold one_call. destruct (ioctl_ret _ _ _ <? 0); [discriminate|]. simpl.
  destruct (_ || _); discriminate.
Qed.

(** [mailbox()], step by step. *)
Lemma mailbox_run (s : State) :
  mailbox s =
  match mb s with
  | Some m => (Ok m, s)
  | None =>
      match Mailbox_ctor s with
      | (Ok m, s') => (Ok m, mkState (world s') (calls s') (objects s') (Some m))
      | (Throw e, s') => (Throw e, s')
      | (Undefined, s') => (Undefined, s')
      end
  end.
Proof.
  unfold mailbox. destruct (mb s); [reflexivity|].
  unfold mbind, M_bind, mb_reset, mret, M_ret.
  destruct (Mailbox_ctor s) as [[m|e|] s']; reflexivity.
Qed.

(** X5.  After [mailbox()] the singleton is the mailbox it returned; when
    it throws, the singleton is as before, so that one that was unset
    stays unset and the next call builds again.  Buffer objects are never
    touched. *)
Theorem mailbox_sets_singleton (s : State) :
  match (mailbox s).1 with
  | Ok m => mb (mailbox s).2 = Some m
  | Throw _ => mb s = None /\ mb (mailbox s).2 = None
  | Undefined => False
  end
  /\ objects (mailbox s).2 = objects s.
Proof.
  rewrite mailbox_run.
  destruct (mb s) as [m|] eqn:Hmb; simpl; [split; [assumption | reflexivity]|].
  pose proof (Mailbox_ctor_mb s) as Hm.
  pose proof (Mailbox_ctor_objects s) as Ho.
  pose proof (Mailbox_ctor_defined s) as Hdef.
  destruct (Mailbox_ctor s) as [[m|e|] s']; simpl in *.
  - split; [reflexivity | assumption].
  - split; [|assumption]. split; [reflexivity|]. rewrite Hm. assumption.
  - contradiction.
Qed.

(** X6.  Once [mailbox()] has returned a mailbox, every later call returns
    the same one and does nothing else: no [open], no [ioctl]. *)
Theorem mailbox_once (s s' : State) (m : Mailbox) :
  mailbox s = (Ok m, s') -> mailbox s' = (Ok m, s').
Proof.
  rewrite mailbox_run. intros E.
  assert (Hmb : mb s' = Some m).
  { destruct (mb s) as [m0|] eqn:Hmb.
    - injection E as <- <-. assumption.
    - destruct (Mailbox_ctor s) as [[m0|e|] s0]; try discriminate.
      injection E as <- <-. reflexivity. }
  rewrite mailbox_run, Hmb. reflexivity.
Qed.

End Singleton.

(** ** Buffers: what allocation and release leave behind *)

Section BufferLife.
Context {H : Host} {HD : Headers}.

Lemma allocateBuffer_objects_prefix (this : Mailbox) (sz al fl : Z) (s : State) :
  exists new, objects (allocateBuffer this sz al fl s).2 = objects s ++ new
              /\ (length new <= 1)%nat.
Proof.
  rewrite allocateBuffer_run, memAlloc_run.
  pose proof (one_call_objects this
                (MailboxMessage ALLOCATE_MEMORY 3 1 [sz; raised_alignment al; fl])
                (fun m => getContent m 0) s) as H1.
  destruct (one_call _ _ _ s) as [[handle|e|] s1]; simpl in *;
    try (exists []; rewrite app_nil_r; split; [exact H1 | simpl; lia]).
  destruct (handle =? 0);
    [exists []; rewrite app_nil_r; split; [exact H1 | simpl; lia]|].
  rewrite memLock_run.
  pose proof (one_call_objects this (QueryMessage LOCK_MEMORY [handle])
                (fun m => getContent m 0) s1) as H2.
  destruct (one_call _ _ _ s1) as [[q|e|] s2]; simpl in *; rewrite H1 in H2;
    try (exists []; rewrite app_nil_r; split; [exact H2 | simpl; lia]).
  eexists [_]. rewrite H2. split; [reflexivity | simpl; lia].
Qed.

(** X7.  allocateBuffer never changes or removes a buffer object that
    exists, whatever its outcome; the pointer it returns designated no
    object before, and the store holds one object more. *)
Theorem allocateBuffer_fresh (this : Mailbox) (sz al fl : Z) (s : State) :
  (forall q b, deref q s = Some b ->
               deref q (allocateBuffer this sz al fl s).2 = Some b)
  /\ (forall p s1,
        allocateBuffer this sz al fl s = (Ok p, s1) -> p <> nullptr ->
        deref p s = None /\ length (objects s1) = S (length (objects s))).
Proof.
  split.
  - intros q b Hq. destruct (allocateBuffer_objects_prefix this sz al fl s) as [new [E _]].
    destruct q as [|i]; [discriminate|]. unfold deref in *. rewrite E.
    apply lookup_app_l_Some. exact Hq.
  - intros p s1. rewrite allocateBuffer_run, memAlloc_run.
    pose proof (one_call_objects this
                  (MailboxMessage ALLOCATE_MEMORY 3 1 [sz; raised_alignment al; fl])
                  (fun m => getContent m 0) s) as H1.
    destruct (one_call _ _ _ s) as [[handle|e|] s0]; simpl in *; try discriminate.
    destruct (handle =? 0).
    { intros E Hp. injection E as <- _. contradiction. }
    rewrite memLock_run.
    pose proof (one_call_objects this (QueryMessage LOCK_MEMORY [handle])
                  (fun m => getContent m 0) s0) as H2.
    destruct (one_call _ _ _ s0) as [[q|e|] s2]; simpl in *; try discriminate.
    intros E _. injection E as <- <-. simpl. rewrite H2, H1. split.
    + apply lookup_ge_None. lia.
    + rewrite length_app. simpl. lia.
Qed.

(** X8.  When the allocation gave a handle and the lock call itself
    fails, allocateBuffer ends with the system error [mailboxCall] throws
    for the lock, whose code is [errno] as it stands after the two
    diagnostics: no buffer object is made, and the log holds the
    allocation and the lock and nothing after, so the handle stays
    allocated. *)
Theorem allocateBuffer_lock_call_fails (this : Mailbox) (sz al fl : Z) (s s1 : State)
    (handle : Z) :
  memAlloc this sz (raised_alignment al) fl s = (Ok handle, s1) ->
  handle <> 0 ->
  ioctl_ret this (lock_request handle) s1 < 0 ->
  (allocateBuffer this sz al fl s).1
  = Throw (system_error (errno (world (after_report this (lock_request handle) s1)))
                        "Failed to set mailbox property")
  /\ objects (allocateBuffer this sz al fl s).2 = objects s
  /\ calls (allocateBuffer this sz al fl s).2
     = calls s ++ [CallIoctl (fd this) (alloc_request sz al fl);
                   CallIoctl (fd this) (lock_request handle)].
Proof.
  intros Ha Hne Hl.
  pose proof (memAlloc_sends this sz (raised_alignment al) fl s) as Hlog.
  pose proof (one_call_objects this
                (MailboxMessage ALLOCATE_MEMORY 3 1 [sz; raised_alignment al; fl])
                (fun m => getContent m 0) s) as Hobj.
  rewrite <- memAlloc_run in Hobj.
  rewrite allocateBuffer_run, Ha in *. simpl in Hlog, Hobj.
  rewrite (proj2 (Z.eqb_neq handle 0) Hne), memLock_run.
  unfold one_call, lock_request in *.
  rewrite (proj2 (Z.ltb_lt _ _) Hl). simpl.
  split; [reflexivity|]. split; [assumption|].
  rewrite Hlog, <- app_assoc. reflexivity.
Qed.

Lemma deallocateBuffer_mb (this : Mailbox) (p : nat) (s : State) :
  mb (deallocateBuffer this p s).2 = mb s.
Proof.
  destruct (deref p s) as [b|] eqn:Hb.
  - rewrite (deallocateBuffer_run this p b s Hb).
    assert (Hu : mb (after_unmap b s) = mb s)
      by (unfold after_unmap; destruct (hostPointer b =? 0); reflexivity).
    destruct (memHandle b =? 0); [exact Hu|].
    rewrite memUnlock_run.
    pose proof (one_call_mb this (QueryMessage UNLOCK_MEMORY [memHandle b])
                  (fun m => getContent m 0 =? 0) (after_unmap b s)) as H1.
    destruct (one_call _ _ _ (after_unmap b s)) as [[[]|e|] s1]; simpl in *;
      rewrite <- Hu, <- H1; try reflexivity.
    rewrite memFree_run.
    pose proof (one_call_mb this (QueryMessage RELEASE_MEMORY [memHandle b])
                  (fun m => getContent m 0 =? 0) s1) as H2.
    destruct (one_call _ _ _ s1) as [[freed|e|] s2]; simpl in *; assumption.
  - unfold deallocateBuffer, mbind, M_bind, member. rewrite Hb. reflexivity.
Qed.

(** X9.  A buffer whose handle is 0 is released without any [ioctl]:
    deallocateBuffer returns [true] and the log grows by the unmapping
    alone, and by nothing when the host pointer is null as well. *)
Theorem deallocateBuffer_zero_handle (this : Mailbox) (p : nat) (b : DeviceBuffer)
    (s : State) :
  deref p s = Some b -> memHandle b = 0 ->
  (deallocateBuffer this p s).1 = Ok true
  /\ calls (deallocateBuffer this p s).2
     = calls s ++ (if hostPointer b =? 0 then []
                   else [CallUnmap (hostPointer b) (size b)]).
Proof.
  intros Hb Hh. rewrite (deallocateBuffer_run this p b s Hb), Hh. simpl.
  split; [reflexivity | apply after_unmap_calls].
Qed.

(** X10.  When the firmware answers the unlock with a word that is not 0,
    deallocateBuffer returns [false] and stops: the free request is not
    sent, although the host mapping has been taken away already. *)
Theorem deallocateBuffer_unlock_refused (this : Mailbox) (p : nat) (b : DeviceBuffer)
    (s : State) :
  deref p s = Some b -> memHandle b <> 0 ->
  0 <= ioctl_ret this (unlock_request (memHandle b)) (after_unmap b s) ->
  getContent (ioctl_answer this (unlock_request (memHandle b)) (after_unmap b s)) 0 <> 0 ->
  (deallocateBuffer this p s).1 = Ok false
  /\ calls (deallocateBuffer this p s).2 = calls s ++ release_prefix this b.
Proof.
  intros Hb Hh Hret Hans. rewrite (deallocateBuffer_run this p b s Hb).
  rewrite (proj2 (Z.eqb_neq _ _) Hh), memUnlock_run.
  unfold one_call, unlock_request in *.
  rewrite (proj2 (Z.ltb_ge _ _) Hret), (proj2 (Z.eqb_neq _ _) Hans). simpl.
  split; [reflexivity|].
  rewrite after_unmap_calls, <- app_assoc. reflexivity.
Qed.

Lemma sent_last (b : Buffer) (fd0 : Z) (log : list Call) :
  sent b (log ++ [CallIoctl fd0 b]) = true.
Proof.
  unfold sent. rewrite existsb_app. simpl. unfold Buffer_eqb.
  rewrite bool_decide_eq_true_2 by reflexivity.
  rewrite orb_true_r. reflexivity.
Qed.

Lemma deallocateBuffer_true_calls (this : Mailbox) (p : nat) (b : DeviceBuffer)
    (s : State) :
  deref p s = Some b -> memHandle b <> 0 ->
  (deallocateBuffer this p s).1 = Ok true ->
  calls (deallocateBuffer this p s).2
  = calls s ++ release_prefix this b
    ++ [CallIoctl (fd this) (free_request (memHandle b))].
Proof.
  intros Hb Hh. rewrite (deallocateBuffer_run this p b s Hb).
  rewrite (proj2 (Z.eqb_neq _ _) Hh), memUnlock_run.
  pose proof (one_call_calls this (QueryMessage UNLOCK_MEMORY [memHandle b])
                (fun m => getContent m 0 =? 0) (after_unmap b s)) as H1.
  rewrite after_unmap_calls, <- app_assoc in H1. fold (release_prefix this b) in H1.
  destruct (one_call _ _ _ (after_unmap b s)) as [[[]|e|] s1]; simpl in *;
    try discriminate.
  rewrite memFree_run.
  pose proof (one_call_calls this (QueryMessage RELEASE_MEMORY [memHandle b])
                (fun m => getContent m 0 =? 0) s1) as H2.
  destruct (one_call _ _ _ s1) as [[[]|e|] s2]; simpl in *; try discriminate.
  intros _. rewrite H2, H1, <- app_assoc. reflexivity.
Qed.

(** X11.  If deallocateBuffer returns [true] for a buffer whose handle is
    not 0, then it has sent the unmapping (when the host pointer is set),
    the unlock and the free request for that handle, in this order and
    nothing else. *)
Theorem deallocateBuffer_true_has_freed (this : Mailbox) (p : nat) (b : DeviceBuffer)
    (s : State) :
  deref p s = Some b -> memHandle b <> 0 ->
  (deallocateBuffer this p s).1 = Ok true ->
  calls (deallocateBuffer this p s).2
  = calls s ++ release_prefix this b
    ++ [CallIoctl (fd this) (free_request (memHandle b))]
  /\ released (memHandle b) (calls (deallocateBuffer this p s).2) = true.
Proof.
  intros Hb Hh Hr.
  rewrite (deallocateBuffer_true_calls this p b s Hb Hh Hr).
  split; [reflexivity|].
  unfold released, free_request. rewrite app_assoc. apply sent_last.
Qed.

(** X12.  The destructor of a buffer whose handle is 0 does nothing at
    all, also when the host pointer is set: the mapping that
    deallocateBuffer would take away stays. *)
Theorem DeviceBuffer_dtor_skips_unmapping (this : nat) (b : DeviceBuffer) (m : Mailbox)
    (s : State) :
  deref this s = Some b -> memHandle b = 0 -> hostPointer b <> 0 ->
  DeviceBuffer_dtor this s = (Returned tt, s)
  /\ calls (deallocateBuffer m this s).2
     = calls s ++ [CallUnmap (hostPointer b) (size b)].
Proof.
  intros Hb Hh Hp. split.
  - unfold DeviceBuffer_dtor, noexcept.
    rewrite (bind_Ok _ _ s s (memHandle b)) by (apply member_run; assumption).
    rewrite Hh. reflexivity.
  - rewrite (deallocateBuffer_run m this b s Hb), Hh. simpl.
    rewrite after_unmap_calls, (proj2 (Z.eqb_neq _ _) Hp). reflexivity.
Qed.

(** X13.  The destructor of a buffer with a handle, run while no mailbox
    exists, builds the mailbox first; when the constructor throws, the
    exception cannot leave the destructor, which is [noexcept]: the
    program ends in [std::terminate], and nothing of the buffer has been
    released: the log has grown by what the constructor issued, beginning
    with the [open]. *)
Theorem DeviceBuffer_dtor_builds_mailbox (this : nat) (b : DeviceBuffer) (s : State)
    (e : exn) :
  deref this s = Some b -> memHandle b <> 0 -> mb s = None ->
  (Mailbox_ctor s).1 = Throw e ->
  DeviceBuffer_dtor this s = (Terminated, (Mailbox_ctor s).2)
  /\ exists rest, calls (DeviceBuffer_dtor this s).2 = calls s ++ CallOpen :: rest
                  /\ (length rest <= 1)%nat.
Proof.
  intros Hb Hh Hmb He.
  assert (Hrun : DeviceBuffer_dtor this s = (Terminated, (Mailbox_ctor s).2)).
  { unfold DeviceBuffer_dtor, noexcept.
    rewrite (bind_Ok _ _ s s (memHandle b)) by (apply member_run; assumption).
    rewrite (proj2 (Z.eqb_neq _ _) Hh). simpl.
    rewrite (bind_Throw _ _ s (Mailbox_ctor s).2 e); [reflexivity|].
    rewrite mailbox_run, Hmb.
    destruct (Mailbox_ctor s) as [[m|e0|] s']; simpl in *; try discriminate.
    injection He as ->. reflexivity. }
  split; [exact Hrun|]. rewrite Hrun. simpl.
  destruct (Z.ltb_spec (open_ret s) 0) as [Hneg|Hpos].
  - exists []. split; [|simpl; lia].
    rewrite Mailbox_ctor_run, (proj2 (Z.ltb_lt _ _) Hneg). reflexivity.
  - eexists [_]. split; [apply Mailbox_ctor_calls; assumption | simpl; lia].
Qed.

(** X14.  A buffer released by hand and then destroyed is released twice:
    deallocateBuffer leaves the handle in the object, so the destructor
    that follows sends the unmapping and the unlock request again. *)
Theorem release_then_destroy_releases_twice (this : nat) (b : DeviceBuffer)
    (m : Mailbox) (s : State) :
  deref this s = Some b -> memHandle b <> 0 -> mb s = Some m ->
  exists rest,
    calls (DeviceBuffer_dtor this (deallocateBuffer m this s).2).2
    = calls (deallocateBuffer m this s).2 ++ release_prefix m b ++ rest.
Proof.
  intros Hb Hh Hmb.
  assert (Hb' : deref this (deallocateBuffer m this s).2 = Some b).
  { rewrite (deref_objects this s) by apply deallocateBuffer_objects. exact Hb. }
  assert (Hmb' : mb (deallocateBuffer m this s).2 = Some m).
  { rewrite deallocateBuffer_mb. exact Hmb. }
  rewrite (DeviceBuffer_dtor_run this b m _ Hb' Hmb').
  rewrite (proj2 (Z.eqb_neq _ _) Hh).
  destruct (deallocateBuffer_calls m this b _ Hb' Hh) as [rest Hrest].
  exists rest.
  destruct (deallocateBuffer m this (deallocateBuffer m this s).2) as [[r|e|] s2];
    exact Hrest.
Qed.

(** X15.  When the read reports success and content word 1 is a 32-bit
    value, getTotalGPUMemory returns a value below 2^31 whose double is
    that word or one less. *)
Theorem getTotalGPUMemory_bounds
    (readMailboxMessage : Mailbox -> Buffer -> M (bool * Buffer))
    (this : Mailbox) (s s' : State) (msg : Buffer) :
  readMailboxMessage this (SimpleQueryMessage VC_MEMORY) s = (Ok (true, msg), s') ->
  0 <= getContent msg 1 < 2 ^ 32 ->
  exists r,
    getTotalGPUMemory readMailboxMessage this s = (Ok r, s')
    /\ 0 <= r < 2 ^ 31
    /\ 2 * r <= getContent msg 1 <= 2 * r + 1.
Proof.
  intros Hread Hw. exists (getContent msg 1 / 2).
  split.
  - unfold getTotalGPUMemory, mbind, M_bind. rewrite Hread. reflexivity.
  - pose proof (Z.div_mod (getContent msg 1) 2) as Hdm.
    pose proof (Z.mod_pos_bound (getContent msg 1) 2) as Hm. lia.
Qed.

End BufferLife.

(** ** Allocation and release together *)

Section RoundTrip.
Context {H : Host} {HD : Headers}.

(** What a successful allocateBuffer has done. *)
Lemma allocateBuffer_Ok_log (this : Mailbox) (sz al fl : Z) (s s1 : State) (p : nat) :
  allocateBuffer this sz al fl s = (Ok p, s1) -> p <> nullptr ->
  exists b,
    deref p s1 = Some b /\ memHandle b <> 0 /\ size b = sz
    /\ calls s1
       = calls s ++ [CallIoctl (fd this) (alloc_request sz al fl);
                     CallIoctl (fd this) (lock_request (memHandle b));
                     CallMap (busAddressToPhysicalAddress (qpuPointer b)) sz].
Proof.
  rewrite allocateBuffer_run. intros E Hp.
  pose proof (memAlloc_sends this sz (raised_alignment al) fl s) as Hlog.
  destruct (memAlloc this sz (raised_alignment al) fl s) as [[handle|e|] s0];
    try discriminate.
  destruct (Z.eqb_spec handle 0) as [->|Hne].
  { injection E as <- _. contradiction. }
  pose proof (one_call_calls this (QueryMessage LOCK_MEMORY [handle])
                (fun m => getContent m 0) s0) as Hlock.
  rewrite <- memLock_run in Hlock.
  destruct (memLock this handle s0) as [[q|e|] s2]; try discriminate.
  injection E as <- <-. simpl in *. eexists. split.
  - unfold deref. simpl. rewrite lookup_app_r by reflexivity.
    rewrite Nat.sub_diag. reflexivity.
  - simpl. split; [exact Hne|]. split; [reflexivity|].
    rewrite Hlock, Hlog, <- !app_assoc. reflexivity.
Qed.

(** X16.  A buffer obtained from allocateBuffer and released with result
    [true] has been unlocked and freed under the very handle the
    allocation gave: from start to end the log has grown by the
    allocation, the lock, the mapping, the unmapping (when the mapping
    gave a pointer), the unlock and the free, and the mapped size is the
    size asked for. *)
Theorem allocate_release_balanced (this : Mailbox) (sz al fl : Z) (s s1 : State)
    (p : nat) :
  allocateBuffer this sz al fl s = (Ok p, s1) -> p <> nullptr ->
  (deallocateBuffer this p s1).1 = Ok true ->
  exists b,
    deref p s1 = Some b /\ size b = sz
    /\ calls (deallocateBuffer this p s1).2
       = calls s
         ++ [CallIoctl (fd this) (alloc_request sz al fl);
             CallIoctl (fd this) (lock_request (memHandle b));
             CallMap (busAddressToPhysicalAddress (qpuPointer b)) sz]
         ++ release_prefix this b
         ++ [CallIoctl (fd this) (free_request (memHandle b))].
Proof.
  intros Ha Hp Hr.
  destruct (allocateBuffer_Ok_log this sz al fl s s1 p Ha Hp) as [b [Hb [Hh [Hs Hlog]]]].
  exists b. split; [exact Hb|]. split; [exact Hs|].
  rewrite (deallocateBuffer_true_calls this p b s1 Hb Hh Hr), Hlog, <- !app_assoc.
  reflexivity.
Qed.

End RoundTrip.

(** ** Further runs on the board *)

Section OnTheBench.
Import Board Bench.
#[local] Existing Instance host.

(** X2 at 1000 ms: the timeout word is 1000. *)
Lemma executeQPU_sends_1000 :
  0 <= 1000 <= 0xFFFFFFFF
  /\ calls (executeQPU (HD := debug_build) the_mailbox 12 (0, 64) true 1000 enabling).2
     = [CallIoctl 3 (message EXECUTE_QPU 4 1 [12; 64; 0; 1000])].
Proof.
  assert (Ht : 0 <= 1000 <= 0xFFFFFFFF) by lia.
  split; [exact Ht|].
  rewrite (executeQPU_timeout_in_range (HD := debug_build)
             the_mailbox 12 (0, 64) true 1000 enabling Ht).
  vm_compute. reflexivity.
Defined.

(** X3 at -1 ms: the timeout word is 0xFFFFFFFF, in the debug build too. *)
Lemma executeQPU_sends_minus_one :
  - 2 ^ 32 <= -1 < 0
  /\ calls (executeQPU (HD := debug_build) the_mailbox 12 (0, 64) false (-1) enabling).2
     = [CallIoctl 3 (message EXECUTE_QPU 4 1 [12; 64; 1; 0xFFFFFFFF])].
Proof.
  assert (Ht : - 2 ^ 32 <= -1 < 0) by lia.
  split; [exact Ht|].
  rewrite (executeQPU_negative_timeout (HD := debug_build)
             the_mailbox 12 (0, 64) false (-1) enabling Ht).
  vm_compute. reflexivity.
Defined.

(** X4 on an enabling firmware: the [open], then the enabling request. *)
Lemma Mailbox_ctor_on_board :
  0 <= open_ret enabling
  /\ calls (Mailbox_ctor (HD := release_build) enabling).2
     = [CallOpen; CallIoctl 3 (message ENABLE_QPU 1 1 [1])].
Proof.
  assert (Hopen : 0 <= open_ret enabling) by (vm_compute; discriminate).
  split; [exact Hopen|].
  exact (proj1 (proj2 (Mailbox_ctor_cases (HD := release_build) enabling)) Hopen).
Defined.

(** X6 on an enabling firmware: the second call gives the mailbox of the
    first and the state stays. *)
Lemma mailbox_twice_on_board :
  mailbox (HD := release_build) enabling
  = (Ok the_mailbox, (mailbox (HD := release_build) enabling).2)
  /\ mailbox (HD := release_build) (mailbox (HD := release_build) enabling).2
     = (Ok the_mailbox, (mailbox (HD := release_build) enabling).2).
Proof.
  assert (Hfirst : mailbox (HD := release_build) enabling
                   = (Ok the_mailbox, (mailbox (HD := release_build) enabling).2))
    by (vm_compute; reflexivity).
  split; [exact Hfirst|].
  exact (mailbox_once (HD := release_build) _ _ _ Hfirst).
Defined.

(** X7 on a granting firmware: the first buffer is object 1, which did
    not exist before. *)
Lemma allocateBuffer_fresh_on_board :
  allocateBuffer (HD := release_build) the_mailbox 16 0 0 granting
  = (Ok 1%nat, (allocateBuffer (HD := release_build) the_mailbox 16 0 0 granting).2)
  /\ deref 1 granting = None.
Proof.
  assert (Ha : allocateBuffer (HD := release_build) the_mailbox 16 0 0 granting
               = (Ok 1%nat,
                  (allocateBuffer (HD := release_build) the_mailbox 16 0 0 granting).2))
    by (vm_compute; reflexivity).
  split; [exact Ha|].
  refine (proj1 (proj2 (allocateBuffer_fresh (HD := release_build)
                          the_mailbox 16 0 0 granting) 1%nat _ Ha _)).
  discriminate.
Defined.

(** X8 on a firmware whose lock call fails with errno 5. *)
Lemma lock_call_fails_on_board :
  memAlloc (HD := release_build) the_mailbox 16 (raised_alignment (HD := release_build) 0) 0
           lock_call_fails
  = (Ok 7, (memAlloc (HD := release_build) the_mailbox 16 4096 0 lock_call_fails).2)
  /\ (allocateBuffer (HD := release_build) the_mailbox 16 0 0 lock_call_fails).1
     = Throw (system_error 5 "Failed to set mailbox property")
  /\ objects (allocateBuffer (HD := release_build) the_mailbox 16 0 0 lock_call_fails).2
     = [].
Proof.
  assert (Ha : memAlloc (HD := release_build) the_mailbox 16
                 (raised_alignment (HD := release_build) 0) 0 lock_call_fails
               = (Ok 7, (memAlloc (HD := release_build) the_mailbox 16 4096 0
                           lock_call_fails).2))
    by (vm_compute; reflexivity).
  split; [exact Ha|].
  destruct (allocateBuffer_lock_call_fails (HD := release_build)
              the_mailbox 16 0 0 lock_call_fails _ 7 Ha) as [Hthrow [Hobj _]].
  - discriminate.
  - vm_compute. reflexivity.
  - split; [exact Hthrow | exact Hobj].
Defined.

(** X9 on a buffer whose handle is 0 and whose host pointer is set: the
    release unmaps and returns [true]. *)
Lemma stale_buffer_release :
  deref 1 stale_buffer = Some (mkDeviceBuffer 0 0 0x40001000 16)
  /\ (deallocateBuffer (HD := release_build) the_mailbox 1 stale_buffer).1 = Ok true
  /\ calls (deallocateBuffer (HD := release_build) the_mailbox 1 stale_buffer).2
     = [CallUnmap 0x40001000 16].
Proof.
  assert (Hb : deref 1 stale_buffer = Some (mkDeviceBuffer 0 0 0x40001000 16))
    by reflexivity.
  split; [exact Hb|].
  exact (deallocateBuffer_zero_handle (HD := release_build)
           the_mailbox 1 _ stale_buffer Hb eq_refl).
Defined.

(** X12 on the same buffer: the destructor leaves the state as it is. *)
Lemma stale_buffer_destructor :
  deref 1 stale_buffer = Some (mkDeviceBuffer 0 0 0x40001000 16)
  /\ DeviceBuffer_dtor (HD := release_build) 1 stale_buffer
     = (Returned tt, stale_buffer).
Proof.
  assert (Hb : deref 1 stale_buffer = Some (mkDeviceBuffer 0 0 0x40001000 16))
    by reflexivity.
  split; [exact Hb|].
  refine (proj1 (DeviceBuffer_dtor_skips_unmapping (HD := release_build)
                   1 _ the_mailbox stale_buffer Hb eq_refl _)).
  discriminate.
Defined.

(** X10 on a firmware that answers the unlock with 1: the release returns
    [false] and the last request in the log is the unlock. *)
Lemma unlock_refused_on_board :
  deref 1 (allocateBuffer (HD := release_build) the_mailbox 16 0 0 unlock_refused).2
  = Some (mkDeviceBuffer 7 0xC0001000 0x40001000 16)
  /\ (deallocateBuffer (HD := release_build) the_mailbox 1
        (allocateBuffer (HD := release_build) the_mailbox 16 0 0 unlock_refused).2).1
     = Ok false
  /\ released (HD := release_build) 7
       (calls (deallocateBuffer (HD := release_build) the_mailbox 1
                 (allocateBuffer (HD := release_build) the_mailbox 16 0 0
                    unlock_refused).2).2)
     = false.
Proof.
  assert (Hb : deref 1 (allocateBuffer (HD := release_build) the_mailbox 16 0 0
                          unlock_refused).2
               = Some (mkDeviceBuffer 7 0xC0001000 0x40001000 16))
    by (vm_compute; reflexivity).
  split; [exact Hb|].
  destruct (deallocateBuffer_unlock_refused (HD := release_build)
              the_mailbox 1 _ _ Hb) as [Hr Hlog].
  - discriminate.
  - vm_compute. discriminate.
  - vm_compute. discriminate.
  - split; [exact Hr|]. rewrite Hlog. vm_compute. reflexivity.
Defined.

(** X11 on a granting firmware: the release request for handle 7 is in
    the log. *)
Lemma granted_release_has_freed :
  deref 1 (allocateBuffer (HD := release_build) the_mailbox 16 0 0 granting).2
  = Some (mkDeviceBuffer 7 0xC0001000 0x40001000 16)
  /\ released (HD := release_build) 7
       (calls (deallocateBuffer (HD := release_build) the_mailbox 1
                 (allocateBuffer (HD := release_build) the_mailbox 16 0 0 granting).2).2)
     = true.
Proof.
  assert (Hb : deref 1 (allocateBuffer (HD := release_build) the_mailbox 16 0 0
                          granting).2
               = Some (mkDeviceBuffer 7 0xC0001000 0x40001000 16))
    by (vm_compute; reflexivity).
  split; [exact Hb|].
  refine (proj2 (deallocateBuffer_true_has_freed (HD := release_build)
                   the_mailbox 1 _ _ Hb _ _)).
  - discriminate.
  - vm_compute. reflexivity.
Defined.

(** X16 on a granting firmware: the buffer is object 1 and its size is
    the 16 bytes asked for. *)
Lemma granted_round_trip :
  allocateBuffer (HD := release_build) the_mailbox 16 0 0 granting
  = (Ok 1%nat, (allocateBuffer (HD := release_build) the_mailbox 16 0 0 granting).2)
  /\ exists b,
      deref 1 (allocateBuffer (HD := release_build) the_mailbox 16 0 0 granting).2
      = Some b
      /\ size b = 16.
Proof.
  assert (Ha : allocateBuffer (HD := release_build) the_mailbox 16 0 0 granting
               = (Ok 1%nat,
                  (allocateBuffer (HD := release_build) the_mailbox 16 0 0 granting).2))
    by (vm_compute; reflexivity).
  split; [exact Ha|].
  destruct (allocate_release_balanced (HD := release_build)
              the_mailbox 16 0 0 granting _ 1%nat Ha) as [b [Hb [Hs _]]].
  - discriminate.
  - vm_compute. reflexivity.
  - exists b. split; [exact Hb | exact Hs].
Defined.

(** X13 on a firmware that refuses to enable the processor: the
    constructor throws its runtime error and the destructor ends the
    program. *)
Lemma destructor_without_mailbox :
  deref 1 enable_refused = Some (mkDeviceBuffer 7 0xC0001000 0x40001000 16)
  /\ (Mailbox_ctor (HD := release_build) enable_refused).1
     = Throw (runtime_error "Failed to enable QPUs!")
  /\ (DeviceBuffer_dtor (HD := release_build) 1 enable_refused).1 = Terminated.
Proof.
  assert (Hb : deref 1 enable_refused = Some (mkDeviceBuffer 7 0xC0001000 0x40001000 16))
    by reflexivity.
  assert (He : (Mailbox_ctor (HD := release_build) enable_refused).1
               = Throw (runtime_error "Failed to enable QPUs!"))
    by (vm_compute; reflexivity).
  split; [exact Hb|]. split; [exact He|].
  destruct (DeviceBuffer_dtor_builds_mailbox (HD := release_build)
              1 _ enable_refused (runtime_error "Failed to enable QPUs!") Hb)
    as [Hrun _].
  - discriminate.
  - reflexivity.
  - exact He.
  - rewrite Hrun. reflexivity.
Defined.

(** X14 on a live buffer: the release by hand sends three calls, the
    destructor after it sends the unmapping and the unlock again. *)
Lemma live_buffer_released_twice :
  deref 1 live_buffer = Some (mkDeviceBuffer 7 0xC0001000 0x40001000 16)
  /\ exists rest,
      calls (DeviceBuffer_dtor (HD := release_build) 1
               (deallocateBuffer (HD := release_build) the_mailbox 1 live_buffer).2).2
      = calls (deallocateBuffer (HD := release_build) the_mailbox 1 live_buffer).2
        ++ [CallUnmap 0x40001000 16; CallIoctl 3 (message UNLOCK_MEMORY 1 1 [7])]
        ++ rest.
Proof.
  assert (Hb : deref 1 live_buffer = Some (mkDeviceBuffer 7 0xC0001000 0x40001000 16))
    by reflexivity.
  split; [exact Hb|].
  refine (release_then_destroy_releases_twice (HD := release_build)
            1 _ the_mailbox live_buffer Hb _ eq_refl).
  discriminate.
Defined.

(** X15 on a firmware that reports 0x04c00000 bytes: 0x02600000 is
    returned. *)
Lemma getTotalGPUMemory_bounds_on_board :
  exists r,
    getTotalGPUMemory (HD := release_build) (readMailboxMessage (HD := release_build))
      the_mailbox reporting_memory
    = (Ok r, (readMailboxMessage (HD := release_build) the_mailbox
                (SimpleQueryMessage (Headers := release_build) VC_MEMORY)
                reporting_memory).2)
    /\ 0 <= r < 2 ^ 31.
Proof.
  destruct (getTotalGPUMemory_bounds (HD := release_build)
              (readMailboxMessage (HD := release_build)) the_mailbox reporting_memory
              (readMailboxMessage (HD := release_build) the_mailbox
                 (SimpleQueryMessage (Headers := release_build) VC_MEMORY)
                 reporting_memory).2
              (overwrite (message VC_MEMORY 0 2 []) 0x80000000
                 [0x3b400000; 0x04c00000]))
    as [r [Hr [Hb _]]].
  - vm_compute. reflexivity.
  - vm_compute. split; [discriminate | reflexivity].
  - exists r. split; [exact Hr | exact Hb].
Defined.

(** C4, the error code.  On the board whose [perror] cannot write, the
    [ioctl] of memLock(7) fails and leaves 14 in [errno]; the diagnostic
    printed before the [throw] leaves 22 there, and 22 is the code the
    system error carries. *)
Theorem memLock_error_code_overwritten :
  ioctl_ret (H := muted_host) the_mailbox
    (QueryMessage (Headers := release_build) LOCK_MEMORY [7]) muted_failing = -1
  /\ errno (world (after_ioctl (H := muted_host) the_mailbox
                     (QueryMessage (Headers := release_build) LOCK_MEMORY [7])
                     muted_failing)) = 14
  /\ (memLock (H := muted_host) (HD := release_build) the_mailbox 7 muted_failing).1
     = Throw (system_error 22 "Failed to set mailbox property").
Proof. repeat split; vm_compute; reflexivity. Qed.

End OnTheBench.
